(** * The Webflow CMS client ([webflow.py]): a shallow embedding

    [WebflowApi] is a thin wrapper around [requests.request].  Every method
    builds a path (and sometimes a JSON body) and delegates to
    [_webflow_request]; [list_items] with [all=True] adds a client-side
    pagination loop.

    The embedding threads an explicit world through every call: the list of
    requests handed to [requests.request] so far and the lines printed on
    standard output.  The upstream service is a function of the history
    and of the request.  Python exceptions are an outcome of their own, and
    so is fuel exhaustion of the one [while] loop. *)

From Stdlib Require Import ZArith List String Ascii Bool Lia DecimalString.
From Stdlib Require DecimalPos DecimalZ.
Import ListNotations.
Local Open Scope string_scope.
Local Open Scope Z_scope.
Set Warnings "-register-all".

(** ** Values *)

(** What [res.json()] produces and what [json=] accepts.  Objects are Python
    dicts: insertion-ordered, so an association list.  Numbers are the
    integers the service counts with. *)
Inductive json : Type :=
| JNull : json
| JBool : bool -> json
| JNum  : Z -> json
| JStr  : string -> json
| JArr  : list json -> json
| JObj  : list (string * json) -> json.

(** The HTTP response as [requests] exposes it.  [Json j] is a body that
    decodes to [j]; [Text raw] is a body that is not valid JSON. *)
Inductive Body : Type :=
| Json : json -> Body
| Text : string -> Body.

Record Response : Type := mkResponse {
  status_code : Z;
  body : Body
}.

Inductive Method : Type := GET | POST | PUT | PATCH | DELETE.

(** The arguments of one call of [requests.request]. *)
Record Request : Type := mkRequest {
  req_method : Method;
  req_url : string;
  req_headers : list (string * string);
  req_json : option json
}.

(** The exceptions that can leave the client. *)
Inductive exn : Type :=
| AttributeError : string -> exn          (* a setting that is not defined *)
| ImproperlyConfigured : string -> exn    (* settings that are not configured *)
| RequestException : string -> exn        (* transport failure in requests *)
| JSONDecodeError : exn                   (* res.json() on a non-JSON body *)
| HTTPError : Response -> exn             (* res.raise_for_status() *)
| KeyError : string -> exn
| TypeError : exn.

(** ** Python primitives used by the client *)

(** [str(n)] for an int, as an f-string formats it. *)
Definition str_int (n : Z) : string := NilZero.string_of_int (Z.to_int n).

Fixpoint dict_get (d : list (string * json)) (k : string) : option json :=
  match d with
  | [] => None
  | (k', v) :: d' => if String.eqb k' k then Some v else dict_get d' k
  end.

(** [d[k] = v]: an existing key keeps its position, a new one goes last. *)
Fixpoint dict_set (d : list (string * json)) (k : string) (v : json)
  : list (string * json) :=
  match d with
  | [] => [(k, v)]
  | (k', v') :: d' =>
      if String.eqb k' k then (k', v) :: d' else (k', v') :: dict_set d' k v
  end.

(** Strings are held in UTF-8.  A byte [10xxxxxx] continues the character
    that the bytes before it started. *)
Definition is_continuation (c : ascii) : bool :=
  (128 <=? nat_of_ascii c)%nat && (nat_of_ascii c <? 192)%nat.

(** The characters of a [str], one string each, as iterating over it gives
    them: a leading byte together with the continuation bytes after it. *)
Fixpoint chars (s : string) : list json :=
  match s with
  | EmptyString => []
  | String c s' =>
      match s' with
      | String d _ =>
          if is_continuation d then
            match chars s' with
            | JStr rest :: others => JStr (String c rest) :: others
            | _ => [JStr (String c EmptyString)]
            end
          else JStr (String c EmptyString) :: chars s'
      | EmptyString => [JStr (String c EmptyString)]
      end
  end.

(** ** Outcomes and the client monad *)

Inductive Outcome (A : Type) : Type :=
| Ret : A -> Outcome A
| Raise : exn -> Outcome A
| OutOfFuel : Outcome A.
Arguments Ret {A} _.
Arguments Raise {A} _.
Arguments OutOfFuel {A}.

Record World : Type := mkWorld {
  sent : list Request;
  stdout : list json
}.

(** What the network gives back for a request: a response, or a transport
    failure raised inside [requests.request]. *)
Inductive Reply : Type :=
| Responds : Response -> Reply
| Fails : string -> Reply.

(** The service, as seen from the client: it may answer differently depending
    on what it was sent before. *)
Definition Upstream : Type := list Request -> Request -> Reply.

Definition M (A : Type) : Type := World -> Outcome A * World.

Definition ret {A} (a : A) : M A := fun w => (Ret a, w).
Definition raise {A} (e : exn) : M A := fun w => (Raise e, w).
Definition diverge {A} : M A := fun w => (OutOfFuel, w).

Definition bind {A B} (m : M A) (k : A -> M B) : M B :=
  fun w =>
    match m w with
    | (Ret a, w') => k a w'
    | (Raise e, w') => (Raise e, w')
    | (OutOfFuel, w') => (OutOfFuel, w')
    end.

Definition lift {A} (o : Outcome A) : M A := fun w => (o, w).

Notation "x <- m ;; k" := (bind m (fun x => k))
  (at level 61, m at next level, right associativity).
Notation "m ;;; k" := (bind m (fun _ => k))
  (at level 61, right associativity).

(** [res[key]] *)
Definition getitem (v : json) (k : string) : M json :=
  match v with
  | JObj d =>
      match dict_get d k with
      | Some x => ret x
      | None => raise (KeyError k)
      end
  | _ => raise TypeError
  end.

(** [res[key] = x] *)
Definition setitem (v : json) (k : string) (x : json) : M json :=
  match v with
  | JObj d => ret (JObj (dict_set d k x))
  | _ => raise TypeError
  end.

(** [l.extend(v)]: a list gives its elements, a dict its keys, a string its
    characters; nothing else is iterable. *)
Definition extend (l : list json) (v : json) : M (list json) :=
  match v with
  | JArr xs => ret (l ++ xs)%list
  | JObj d => ret (l ++ map (fun kv => JStr (fst kv)) d)%list
  | JStr s => ret (l ++ chars s)%list
  | _ => raise TypeError
  end.

(** [n < v] for an int [n]; [bool] is a subclass of [int]. *)
Definition int_lt (n : Z) (v : json) : M bool :=
  match v with
  | JNum t => ret (n <? t)
  | JBool b => ret (n <? (if b then 1 else 0))
  | _ => raise TypeError
  end.

Definition len (l : list json) : Z := Z.of_nat (List.length l).

(** ** Configuration and the class body *)

(** A value a Django setting can hold, as far as the f-string of [HEADERS]
    can tell: [None] or a string. *)
Inductive pyval : Type :=
| PyNone : pyval
| PyStr : string -> pyval.

(** [f"{v}"] *)
Definition format (v : pyval) : string :=
  match v with
  | PyNone => "None"
  | PyStr s => s
  end.

(** [django.conf.settings], as the class body sees it: an object whose
    attributes are looked up by name.  A lookup gives the value of the
    setting or raises; which exception it raises is Django's choice and is
    left to the settings object. *)
Record Settings : Type := mkSettings {
  getattr : string -> exn + pyval
}.

(** The value of the token setting, when its lookup succeeds. *)
Definition WEBFLOW_API_KEY (settings : Settings) : option pyval :=
  match getattr settings "WEBFLOW_API_KEY" with
  | inr key => Some key
  | inl _ => None
  end.

Fixpoint assoc (name : string) (attrs : list (string * pyval)) : option pyval :=
  match attrs with
  | [] => None
  | (n, v) :: attrs' => if String.eqb n name then Some v else assoc name attrs'
  end.

(** Django's settings object.  [None] is a process in which no settings
    module was configured: every lookup raises [ImproperlyConfigured].
    Otherwise the lookup of a name that the module does not define raises
    [AttributeError]. *)
Definition django (module : option (list (string * pyval))) : Settings :=
  {| getattr := fun name =>
       match module with
       | None => inl (ImproperlyConfigured name)
       | Some attrs =>
           match assoc name attrs with
           | Some v => inr v
           | None => inl (AttributeError name)
           end
       end |}.

(** The class attributes of [WebflowApi]. *)
Record WebflowApi : Type := mkWebflowApi {
  WEBFLOW_URL : string;
  HEADERS : list (string * string)
}.

(** Evaluation of the class body, which happens once, when the module is
    imported; [WebflowApi()] itself takes no argument and cannot fail. *)
Definition WebflowApi_class (settings : Settings) : Outcome WebflowApi :=
  match getattr settings "WEBFLOW_API_KEY" with
  | inl e => Raise e
  | inr key =>
      Ret {| WEBFLOW_URL := "https://api.webflow.com";
             HEADERS := [ ("Accept-Version", "1.0.0");
                          ("Authorization", "Bearer " ++ format key);
                          ("content-type", "application/json") ] |}
  end.

(** ** The client *)

Section Client.

Variable upstream : Upstream.

(** [requests.request(method, url, headers=..., json=...)] *)
Definition requests_request (r : Request) : M Response :=
  fun w =>
    let w' := {| sent := (sent w ++ [r])%list; stdout := stdout w |} in
    match upstream (sent w) r with
    | Responds res => (Ret res, w')
    | Fails msg => (Raise (RequestException msg), w')
    end.

(** [res.json()] *)
Definition res_json (res : Response) : M json :=
  match body res with
  | Json j => ret j
  | Text _ => raise JSONDecodeError
  end.

Definition print (j : json) : M unit :=
  fun w => (Ret tt, {| sent := sent w; stdout := (stdout w ++ [j])%list |}).

(** [res.raise_for_status()] of [requests]: client errors (4xx) and server
    errors (5xx) raise [HTTPError], which carries the response. *)
Definition raise_for_status (res : Response) : M unit :=
  if (400 <=? status_code res) && (status_code res <? 600)
  then raise (HTTPError res)
  else ret tt.

(** The keyword arguments are only ever [json=...] or nothing. *)
Definition _webflow_request (self : WebflowApi) (method : Method)
    (path : string) (kwargs : option json) : M json :=
  res <- requests_request {| req_method := method;
                             req_url := WEBFLOW_URL self ++ "/" ++ path;
                             req_headers := HEADERS self;
                             req_json := kwargs |} ;;
  j <- res_json res ;;
  print j ;;;
  raise_for_status res ;;;
  res_json res.

Definition info (self : WebflowApi) : M json :=
  _webflow_request self GET "info" None.

Definition list_sites (self : WebflowApi) : M json :=
  _webflow_request self GET "sites" None.

Definition get_site (self : WebflowApi) (site_id : string) : M json :=
  _webflow_request self GET ("sites/" ++ site_id) None.

Definition publish_site (self : WebflowApi) (site_id : string)
    (domain_names : json) : M json :=
  let domains := JObj [("domains", domain_names)] in
  _webflow_request self POST ("sites/" ++ site_id ++ "/publish") (Some domains).

Definition list_domains (self : WebflowApi) (site_id : string) : M json :=
  _webflow_request self GET ("sites/" ++ site_id ++ "/domains") None.

Definition list_collections (self : WebflowApi) (site_id : string) : M json :=
  _webflow_request self GET ("sites/" ++ site_id ++ "/collections") None.

Definition get_collection (self : WebflowApi) (collection_id : string)
  : M json :=
  _webflow_request self GET ("collections/" ++ collection_id) None.

(** The [else] branch of [list_items], which the [all] branch calls back
    into with [all=False]. *)
Definition list_items_page (self : WebflowApi) (collection_id : string)
    (limit offset : Z) : M json :=
  _webflow_request self GET
    ("collections/" ++ collection_id ++ "/items?limit=" ++ str_int limit
       ++ "&offset=" ++ str_int offset) None.

(** The [while] loop of [list_items] and the two assignments after it; one
    unit of fuel per iteration. *)
Fixpoint list_items_while (fuel : nat) (self : WebflowApi)
    (collection_id : string) (offset : Z) (all_items : list json)
    (resp : json) : M json :=
  total <- getitem resp "total" ;;
  continue <- int_lt (len all_items) total ;;
  if continue : bool then
    match fuel with
    | O => diverge
    | S fuel' =>
        let offset := offset + 100 in
        resp <- list_items_page self collection_id 100 offset ;;
        items <- getitem resp "items" ;;
        all_items <- extend all_items items ;;
        list_items_while fuel' self collection_id offset all_items resp
    end
  else
    resp <- setitem resp "items" (JArr all_items) ;;
    resp <- setitem resp "count" (JNum (len all_items)) ;;
    ret resp.

(** The recursive calls pass no [limit], so they run with the default 100. *)
Definition list_items (fuel : nat) (self : WebflowApi)
    (collection_id : string) (limit offset : Z) (all : bool) : M json :=
  if all then
    let all_items := [] in
    resp <- list_items_page self collection_id 100 offset ;;
    items <- getitem resp "items" ;;
    all_items <- extend all_items items ;;
    list_items_while fuel self collection_id offset all_items resp
  else
    list_items_page self collection_id limit offset.

Definition get_item (self : WebflowApi) (collection_id item_id : string)
  : M json :=
  _webflow_request self GET
    ("collections/" ++ collection_id ++ "/items/" ++ item_id) None.

Definition create_item (self : WebflowApi) (collection_id : string)
    (item_data : json) (live : bool) : M json :=
  let data := dict_set [] "fields" item_data in
  let l := if live then "?live=true" else "" in
  _webflow_request self POST
    ("collections/" ++ collection_id ++ "/items" ++ l) (Some (JObj data)).

Definition update_item (self : WebflowApi) (collection_id item_id : string)
    (item_data : json) (live : bool) : M json :=
  let data := dict_set [] "fields" item_data in
  let l := if live then "?live=true" else "" in
  _webflow_request self PUT
    ("collections/" ++ collection_id ++ "/items/" ++ item_id ++ l)
    (Some (JObj data)).

Definition patch_item (self : WebflowApi) (collection_id item_id : string)
    (item_data : json) (live : bool) : M json :=
  let data := dict_set [] "fields" item_data in
  let l := if live then "?live=true" else "" in
  _webflow_request self PATCH
    ("collections/" ++ collection_id ++ "/items/" ++ item_id ++ l)
    (Some (JObj data)).

Definition remove_item (self : WebflowApi) (collection_id item_id : string)
  : M json :=
  _webflow_request self DELETE
    ("collections/" ++ collection_id ++ "/items/" ++ item_id) None.

Definition list_webhooks (self : WebflowApi) (site_id : string) : M json :=
  _webflow_request self GET ("sites/" ++ site_id ++ "/webhooks") None.

Definition get_webhook (self : WebflowApi) (site_id webhook_id : string)
  : M json :=
  _webflow_request self GET
    ("sites/" ++ site_id ++ "/webhooks/" ++ webhook_id) None.

Definition create_webhook (self : WebflowApi) (site_id triggerType url : string)
    (filter : json) : M json :=
  let data := JObj [ ("triggerType", JStr triggerType);
                     ("url", JStr url);
                     ("filter", filter) ] in
  _webflow_request self POST ("sites/" ++ site_id ++ "/webhooks") (Some data).

Definition remove_webhook (self : WebflowApi) (site_id webhook_id : string)
  : M json :=
  _webflow_request self DELETE
    ("sites/" ++ site_id ++ "/webhooks/" ++ webhook_id) None.

(** *** A call of any method *)

Inductive Call : Type :=
| Info
| ListSites
| GetSite (site_id : string)
| PublishSite (site_id : string) (domain_names : json)
| ListDomains (site_id : string)
| ListCollections (site_id : string)
| GetCollection (collection_id : string)
| ListItems (collection_id : string) (limit offset : Z) (all : bool)
| GetItem (collection_id item_id : string)
| CreateItem (collection_id : string) (item_data : json) (live : bool)
| UpdateItem (collection_id item_id : string) (item_data : json) (live : bool)
| PatchItem (collection_id item_id : string) (item_data : json) (live : bool)
| RemoveItem (collection_id item_id : string)
| ListWebhooks (site_id : string)
| GetWebhook (site_id webhook_id : string)
| CreateWebhook (site_id triggerType url : string) (filter : json)
| RemoveWebhook (site_id webhook_id : string).

Definition call (fuel : nat) (self : WebflowApi) (c : Call) : M json :=
  match c with
  | Info => info self
  | ListSites => list_sites self
  | GetSite s => get_site self s
  | PublishSite s d => publish_site self s d
  | ListDomains s => list_domains self s
  | ListCollections s => list_collections self s
  | GetCollection c => get_collection self c
  | ListItems c l o a => list_items fuel self c l o a
  | GetItem c i => get_item self c i
  | CreateItem c d l => create_item self c d l
  | UpdateItem c i d l => update_item self c i d l
  | PatchItem c i d l => patch_item self c i d l
  | RemoveItem c i => remove_item self c i
  | ListWebhooks s => list_webhooks self s
  | GetWebhook s h => get_webhook self s h
  | CreateWebhook s t u f => create_webhook self s t u f
  | RemoveWebhook s h => remove_webhook self s h
  end.

(** A program that imports the module and calls one method. *)
Definition session (fuel : nat) (settings : Settings) (c : Call) : M json :=
  self <- lift (WebflowApi_class settings) ;;
  call fuel self c.

(** The calls that are one request; [list_items] with [all=True] is a loop
    of them. *)
Definition single (c : Call) : bool :=
  match c with
  | ListItems _ _ _ true => false
  | _ => true
  end.

End Client.

(** ** Vocabulary of the statements *)

(** The request that [_webflow_request] hands to [requests.request]. *)
Definition request_of (self : WebflowApi) (method : Method) (path : string)
    (kwargs : option json) : Request :=
  {| req_method := method;
     req_url := WEBFLOW_URL self ++ "/" ++ path;
     req_headers := HEADERS self;
     req_json := kwargs |}.

(** The statuses on which [raise_for_status] raises. *)
Definition is_error (res : Response) : bool :=
  (400 <=? status_code res) && (status_code res <? 600).

(** The GET of one page of items. *)
Definition page_request (self : WebflowApi) (collection_id : string)
    (limit offset : Z) : Request :=
  request_of self GET
    ("collections/" ++ collection_id ++ "/items?limit=" ++ str_int limit
       ++ "&offset=" ++ str_int offset) None.

(** The first [n] page requests of a full fetch that starts at [offset]:
    limit 100, offsets [offset], [offset + 100], ... *)
Definition page_requests (self : WebflowApi) (collection_id : string)
    (offset : Z) (n : nat) : list Request :=
  map (fun k => page_request self collection_id 100 (offset + 100 * Z.of_nat k))
      (seq 0 n).

Definition initial : World := {| sent := []; stdout := [] |}.

(** [env] is the envelope of a page that carries [items] and reports
    [total]. *)
Definition envelope (env : list (string * json)) (items : list json)
    (total : Z) : Prop :=
  dict_get env "items" = Some (JArr items) /\
  dict_get env "total" = Some (JNum total).

(** What [list_items] with [all=True] returns: the envelope [env], with
    [items] and [count] overwritten. *)
Definition merged (env : list (string * json)) (all_items : list json) : json :=
  JObj (dict_set (dict_set env "items" (JArr all_items))
          "count" (JNum (len all_items))).

(** [m] only adds requests to the world, and each of them satisfies [P]. *)
Definition sends {A} (P : Request -> Prop) (m : M A) : Prop :=
  forall w, exists rs,
    sent (snd (m w)) = (sent w ++ rs)%list /\ Forall P rs.

(** The three headers of the class, for a given token. *)
Definition required_headers (token : string) : list (string * string) :=
  [ ("Accept-Version", "1.0.0");
    ("Authorization", "Bearer " ++ token);
    ("content-type", "application/json") ].

(** *** Reading a URL back *)

Fixpoint occurs (c : ascii) (s : string) : bool :=
  match s with
  | EmptyString => false
  | String a s' => Ascii.eqb a c || occurs c s'
  end.

(** The text before and after the first [c], if there is one. *)
Fixpoint split_first (c : ascii) (s : string) : option (string * string) :=
  match s with
  | EmptyString => None
  | String a s' =>
      if Ascii.eqb a c then Some ("", s')
      else match split_first c s' with
           | Some (before, after) => Some (String a before, after)
           | None => None
           end
  end.

(** The pieces of [s] between the occurrences of [c]. *)
Fixpoint split_all (c : ascii) (s : string) : list string :=
  match s with
  | EmptyString => [""]
  | String a s' =>
      if Ascii.eqb a c then "" :: split_all c s'
      else match split_all c s' with
           | piece :: pieces => String a piece :: pieces
           | [] => [String a ""]
           end
  end.

(** A URL without its fragment: what precedes the first [#]. *)
Definition strip_fragment (url : string) : string :=
  match split_first "#" url with
  | Some (before, _) => before
  | None => url
  end.

(** The query of a URL: what lies between the first question mark and the
    fragment.  A question mark inside the fragment starts no query. *)
Definition query_string (url : string) : option string :=
  option_map snd (split_first "?" (strip_fragment url)).

Definition parameter (kv : string) : string * string :=
  match split_first "=" kv with
  | Some p => p
  | None => (kv, "")
  end.

(** The parameters of the query string, in order; none when the URL has no
    query string. *)
Definition query_parameters (url : string) : list (string * string) :=
  match query_string url with
  | Some q => map parameter (split_all "&" q)
  | None => []
  end.

(** What precedes the query and the fragment. *)
Definition url_path (url : string) : string :=
  match split_first "?" (strip_fragment url) with
  | Some (path, _) => path
  | None => strip_fragment url
  end.

(** An identifier that can go into a path as it is: it holds neither of the
    characters that end the path of a URL. *)
Definition clean (id : string) : bool :=
  negb (occurs "?" id) && negb (occurs "#" id).

(** Running [m] in [w] sends one request: [method] on [url], with the
    payload [P] under [fields] as its JSON body. *)
Definition writes (m : M json) (w : World) (self : WebflowApi)
    (method : Method) (url : string) (P : list (string * json)) : Prop :=
  sent (snd (m w)) =
  (sent w ++ [ {| req_method := method; req_url := url;
                  req_headers := HEADERS self;
                  req_json := Some (JObj [("fields", JObj P)]) |} ])%list.

(** Read back, [url] has [path] as its path, and [live=true] as its whole
    query when [live] is set, no query at all when it is not. *)
Definition live_only (url path : string) (live : bool) : Prop :=
  url_path url = path /\
  query_string url = (if live then Some "live=true" else None) /\
  query_parameters url = (if live then [("live", "true")] else []).

(** A character that [str] of an int never produces. *)
Definition not_numeric (c : ascii) : bool := negb (occurs c "0123456789-").

(** ** Simulated services *)

Definition ok (j : json) : Response := {| status_code := 200; body := Json j |}.

(** Every request is answered by the same response. *)
Definition always (res : Response) : Upstream := fun _ _ => Responds res.

Fixpoint strip_prefix (p s : string) : option string :=
  match p, s with
  | EmptyString, _ => Some s
  | String a p', String b s' =>
      if Ascii.eqb a b then strip_prefix p' s' else None
  | String _ _, EmptyString => None
  end.

Definition parse_int (s : string) : option Z :=
  option_map Z.of_int (NilZero.int_of_string s).

(** The page of a collection [db] that starts at [offset], in the envelope
    of the service. *)
Definition page_env (db : list json) (offset : Z) : list (string * json) :=
  let items := firstn 100 (skipn (Z.to_nat offset) db) in
  [ ("items", JArr items);
    ("count", JNum (len items));
    ("limit", JNum 100);
    ("offset", JNum offset);
    ("total", JNum (len db)) ].

Definition page (db : list json) (offset : Z) : json :=
  JObj (page_env db offset).

Definition not_found : Response :=
  {| status_code := 404;
     body := Json (JObj [("msg", JStr "Not Found"); ("code", JNum 404)]) |}.

Definition bad_request : Response :=
  {| status_code := 400;
     body := Json (JObj [("msg", JStr "Bad Request"); ("code", JNum 400)]) |}.

(** A consistent service that holds the items [db] of one collection and
    serves them in pages of 100. *)
Definition paged_server (collection_id : string) (db : list json) : Upstream :=
  fun _ r =>
    match req_method r with
    | GET =>
        match strip_prefix
                ("https://api.webflow.com/collections/" ++ collection_id
                   ++ "/items?limit=100&offset=") (req_url r) with
        | Some rest =>
            match parse_int rest with
            | Some offset =>
                if 0 <=? offset then Responds (ok (page db offset))
                else Responds bad_request
            | None => Responds bad_request
            end
        | None => Responds not_found
        end
    | _ => Responds not_found
    end.

(** The collection whose items are the numbers [0 .. n-1]. *)
Definition numbered (n : nat) : list json :=
  map (fun i => JNum (Z.of_nat i)) (seq 0 n).

(** A configured client, for the examples. *)
Definition demo_settings : Settings :=
  django (Some [("DEBUG", PyStr "False"); ("WEBFLOW_API_KEY", PyStr "secret")]).

Definition demo : WebflowApi :=
  {| WEBFLOW_URL := "https://api.webflow.com";
     HEADERS := [ ("Accept-Version", "1.0.0");
                  ("Authorization", "Bearer secret");
                  ("content-type", "application/json") ] |}.

(** The token is defined, but empty. *)
Definition empty_token : Settings :=
  django (Some [("WEBFLOW_API_KEY", PyStr "")]).

(** The settings module defines no token. *)
Definition no_token : Settings := django (Some [("DEBUG", PyStr "False")]).

(** No settings module at all. *)
Definition unconfigured : Settings := django None.

(** A gateway in front of the service that answers with an HTML page. *)
Definition html_404 : Response :=
  {| status_code := 404; body := Text "<html>Not Found</html>" |}.

Definition html_200 : Response :=
  {| status_code := 200; body := Text "<html>OK</html>" |}.

(** A redirection without a [Location] header, which [requests] hands back
    as it is. *)
Definition multiple_choices : Response :=
  {| status_code := 300; body := Json (JArr [JStr "a"; JStr "b"]) |}.

(** A service whose collection shrinks while it is read: two items of five
    on the first page, then one more and a total of three. *)
Definition shrinking : Upstream :=
  fun log _ =>
    match log with
    | [] => Responds (ok (JObj [ ("items", JArr [JNum 1; JNum 2]);
                                 ("total", JNum 5) ]))
    | _ => Responds (ok (JObj [ ("items", JArr [JNum 3]);
                                ("total", JNum 3) ]))
    end.

Definition server_error : Response :=
  {| status_code := 500;
     body := Json (JObj [("msg", JStr "Internal Server Error")]) |}.

(** A service that answers the first request and fails on the later ones. *)
Definition failing_second : Upstream :=
  fun log _ =>
    match log with
    | [] => Responds (ok (JObj [ ("items", JArr [JNum 1]);
                                 ("total", JNum 2) ]))
    | _ => Responds server_error
    end.

(** A page of one item, as a request for 20 items from offset 40 on gets it
    from a collection of 41. *)
Definition last_item_page : json :=
  JObj [ ("items", JArr [JStr "item-40"]); ("count", JNum 1);
         ("limit", JNum 20); ("offset", JNum 40); ("total", JNum 41) ].

(** A network on which nothing gets through. *)
Definition unreachable : Upstream := fun _ _ => Fails "connection refused".

(** Requests without a JSON body are the GETs and the DELETEs, and only
    they. *)
Definition body_matches_method (r : Request) : Prop :=
  req_json r = None <-> (req_method r = GET \/ req_method r = DELETE).

(** The request goes to the base URL of the client. *)
Definition on_base_url (self : WebflowApi) (r : Request) : Prop :=
  exists path, req_url r = WEBFLOW_URL self ++ "/" ++ path.

(** * Properties *)

(** ** The request primitive *)

Section Primitive.

Variable upstream : Upstream.
Variable self : WebflowApi.

(** One equation for the whole primitive: what it returns and what it leaves
    in the world, by cases on the reply. *)
Lemma webflow_request_eq method path kwargs w :
  _webflow_request upstream self method path kwargs w =
  let r := request_of self method path kwargs in
  let w1 := {| sent := (sent w ++ [r])%list; stdout := stdout w |} in
  match upstream (sent w) r with
  | Fails msg => (Raise (RequestException msg), w1)
  | Responds res =>
      match body res with
      | Text _ => (Raise JSONDecodeError, w1)
      | Json j =>
          let w2 := {| sent := (sent w ++ [r])%list;
                       stdout := (stdout w ++ [j])%list |} in
          if is_error res then (Raise (HTTPError res), w2) else (Ret j, w2)
      end
  end.
Proof.
  unfold _webflow_request, bind, requests_request, request_of; cbn.
  destruct (upstream (sent w) _) as [res|msg]; [|reflexivity].
  unfold res_json, raise_for_status, is_error.
  destruct (body res) as [j|raw]; cbn; [|reflexivity].
  destruct ((400 <=? status_code res) && (status_code res <? 600));
    reflexivity.
Qed.

Lemma webflow_request_sent method path kwargs w :
  sent (snd (_webflow_request upstream self method path kwargs w)) =
  (sent w ++ [request_of self method path kwargs])%list.
Proof.
  rewrite webflow_request_eq; cbn.
  destruct (upstream (sent w) _) as [res|msg]; [|reflexivity].
  destruct (body res); [|reflexivity].
  destruct (is_error res); reflexivity.
Qed.

Lemma call_single fuel c :
  single c = true ->
  exists method path kwargs,
    call upstream fuel self c = _webflow_request upstream self method path kwargs.
Proof.
  destruct c; intros Hs; try (do 3 eexists; reflexivity).
  destruct all; [discriminate|].
  do 3 eexists; reflexivity.
Qed.

End Primitive.

(** ** Status and body of the reply *)

Example demo_class : WebflowApi_class demo_settings = Ret demo.
Proof. reflexivity. Qed.

(** Iterating over a string gives its characters, not its bytes: the two
    bytes of a character outside ASCII stay together. *)
Example chars_of_cafe :
  let e_acute := String (ascii_of_nat 195) (String (ascii_of_nat 169) "") in
  chars ("caf" ++ e_acute ++ "s") =
  [JStr "c"; JStr "a"; JStr "f"; JStr e_acute; JStr "s"].
Proof. reflexivity. Qed.

(** C10: the body is decoded (for the [print]) before the status is looked
    at.  A reply whose body is not JSON therefore ends in [JSONDecodeError]
    whatever its status: an error status does not surface as [HTTPError], and
    a successful one does not return.  The request has been sent, nothing has
    been printed. *)
Theorem decode_precedes_status upstream self method path kwargs w res raw :
  upstream (sent w) (request_of self method path kwargs) = Responds res ->
  body res = Text raw ->
  _webflow_request upstream self method path kwargs w =
  (Raise JSONDecodeError,
   {| sent := (sent w ++ [request_of self method path kwargs])%list;
      stdout := stdout w |}).
Proof.
  intros Hreply Hbody.
  rewrite webflow_request_eq; cbn.
  rewrite Hreply, Hbody.
  reflexivity.
Qed.

Lemma decode_precedes_status_witness :
  fst (_webflow_request (always html_404) demo GET "collections/c/items/i"
         None initial) = Raise JSONDecodeError /\
  fst (_webflow_request (always html_200) demo GET "info" None initial)
    = Raise JSONDecodeError.
Proof.
  split.
  - rewrite (decode_precedes_status (always html_404) demo GET
               "collections/c/items/i" None initial html_404
               "<html>Not Found</html>"); reflexivity.
  - rewrite (decode_precedes_status (always html_200) demo GET "info" None
               initial html_200 "<html>OK</html>"); reflexivity.
Defined.

(** C5, as stated, fails twice.  A 404 whose body is not JSON raises the
    decode error, not the HTTP error; and a status outside 2xx that is
    neither 4xx nor 5xx does not raise at all. *)
Lemma http_error_counterexample :
  fst (get_item (always html_404) demo "c" "unknown" initial)
    = Raise JSONDecodeError /\
  fst (get_item (always multiple_choices) demo "c" "unknown" initial)
    = Ret (JArr [JStr "a"; JStr "b"]).
Proof. split; reflexivity. Qed.

(** C5, amended: for every call that is one request, a reply with a JSON
    body and a 4xx or 5xx status raises [HTTPError] carrying that response
    (status and body); with a 2xx status the decoded body is returned. *)
Theorem http_error_or_json upstream fuel self c w r res j :
  single c = true ->
  sent (snd (call upstream fuel self c w)) = (sent w ++ [r])%list ->
  upstream (sent w) r = Responds res ->
  body res = Json j ->
  (400 <= status_code res < 600 ->
   fst (call upstream fuel self c w) = Raise (HTTPError res)) /\
  (200 <= status_code res < 300 ->
   fst (call upstream fuel self c w) = Ret j).
Proof.
  intros Hs Hsent Hreply Hbody.
  destruct (call_single upstream self fuel c Hs) as (m & p & k & Hc).
  rewrite Hc in *.
  rewrite webflow_request_sent in Hsent.
  apply app_inv_head in Hsent.
  injection Hsent as <-.
  rewrite webflow_request_eq; cbn.
  rewrite Hreply, Hbody; unfold is_error.
  split; intros Hstatus.
  - replace (400 <=? status_code res) with true by lia.
    replace (status_code res <? 600) with true by lia.
    reflexivity.
  - replace (400 <=? status_code res) with false by lia.
    reflexivity.
Qed.

Lemma http_error_or_json_witness :
  fst (call (always not_found) 0 demo (GetItem "c" "unknown") initial)
    = Raise (HTTPError not_found).
Proof.
  apply (http_error_or_json (always not_found) 0 demo (GetItem "c" "unknown")
           initial (request_of demo GET "collections/c/items/unknown" None)
           not_found
           (JObj [("msg", JStr "Not Found"); ("code", JNum 404)])).
  - reflexivity.
  - reflexivity.
  - reflexivity.
  - reflexivity.
  - cbn; lia.
Defined.

(** ** What a computation sends *)

Section Sends.

Variable upstream : Upstream.
Variable P : Request -> Prop.

Lemma sends_pure {A} (o : Outcome A) : sends P (lift o).
Proof.
  intros w; exists []; cbn.
  now rewrite app_nil_r.
Qed.

Lemma sends_bind {A B} (m : M A) (k : A -> M B) :
  sends P m -> (forall a, sends P (k a)) -> sends P (bind m k).
Proof.
  intros Hm Hk w; unfold bind.
  destruct (Hm w) as (rs & Hrs & HP).
  destruct (m w) as [[a|e|] w1]; cbn in Hrs.
  - destruct (Hk a w1) as (rs' & Hrs' & HP').
    exists (rs ++ rs')%list; split.
    + now rewrite Hrs', Hrs, app_assoc.
    + now apply Forall_app.
  - exists rs; now split.
  - exists rs; now split.
Qed.

Lemma sends_getitem v k : sends P (getitem v k).
Proof.
  destruct v; try apply (sends_pure (Raise TypeError)).
  unfold getitem.
  destruct (dict_get l k); [apply (sends_pure (Ret j))|].
  apply (sends_pure (Raise (KeyError k))).
Qed.

Lemma sends_setitem v k x : sends P (setitem v k x).
Proof.
  destruct v; try apply (sends_pure (Raise TypeError)).
  apply (sends_pure (Ret (JObj (dict_set l k x)))).
Qed.

Lemma sends_extend l v : sends P (extend l v).
Proof.
  destruct v; try apply (sends_pure (Raise TypeError)).
  - apply (sends_pure (Ret (l ++ chars s)%list)).
  - apply (sends_pure (Ret (l ++ l0)%list)).
  - apply (sends_pure (Ret (l ++ map (fun kv => JStr (fst kv)) l0)%list)).
Qed.

Lemma sends_int_lt n v : sends P (int_lt n v).
Proof.
  destruct v; try apply (sends_pure (Raise TypeError)).
  - apply (sends_pure (Ret (n <? (if b then 1 else 0)))).
  - apply (sends_pure (Ret (n <? z))).
Qed.

Lemma sends_webflow_request self method path kwargs :
  P (request_of self method path kwargs) ->
  sends P (_webflow_request upstream self method path kwargs).
Proof.
  intros HP w.
  exists [request_of self method path kwargs]; split.
  - apply webflow_request_sent.
  - now constructor.
Qed.

Lemma sends_list_items_while self cid fuel :
  (forall offset, P (page_request self cid 100 offset)) ->
  forall offset all_items resp,
    sends P (list_items_while upstream fuel self cid offset all_items resp).
Proof.
  intros HP.
  induction fuel as [|fuel IH]; intros offset all_items resp; cbn.
  - apply sends_bind; [apply sends_getitem|intros total].
    apply sends_bind; [apply sends_int_lt|intros [|]].
    + apply (sends_pure OutOfFuel).
    + apply sends_bind; [apply sends_setitem|intros r1].
      apply sends_bind; [apply sends_setitem|intros r2].
      apply (sends_pure (Ret r2)).
  - apply sends_bind; [apply sends_getitem|intros total].
    apply sends_bind; [apply sends_int_lt|intros [|]].
    + apply sends_bind; [apply sends_webflow_request, HP|intros r1].
      apply sends_bind; [apply sends_getitem|intros items].
      apply sends_bind; [apply sends_extend|intros all'].
      apply IH.
    + apply sends_bind; [apply sends_setitem|intros r1].
      apply sends_bind; [apply sends_setitem|intros r2].
      apply (sends_pure (Ret r2)).
Qed.

Lemma sends_list_items_all self cid fuel limit offset :
  (forall o, P (page_request self cid 100 o)) ->
  sends P (list_items upstream fuel self cid limit offset true).
Proof.
  intros HP; cbn.
  apply sends_bind; [apply sends_webflow_request, HP|intros r1].
  apply sends_bind; [apply sends_getitem|intros items].
  apply sends_bind; [apply sends_extend|intros all'].
  now apply sends_list_items_while.
Qed.

End Sends.

(** ** Headers and configuration *)

Lemma class_headers settings self :
  WebflowApi_class settings = Ret self ->
  exists key,
    WEBFLOW_API_KEY settings = Some key /\
    WEBFLOW_URL self = "https://api.webflow.com" /\
    HEADERS self = required_headers (format key).
Proof.
  unfold WebflowApi_class, WEBFLOW_API_KEY.
  destruct (getattr settings "WEBFLOW_API_KEY") as [e|key]; [discriminate|].
  intros [= <-]; exists key; repeat split.
Qed.

(** C6: whatever the method and its arguments, every request that reaches
    [requests.request] has exactly the three headers of the class, with the
    token of the settings; and every call but the paginated one is a single
    request. *)
Theorem headers_on_every_request upstream fuel settings self c w :
  WebflowApi_class settings = Ret self ->
  exists key rs,
    WEBFLOW_API_KEY settings = Some key /\
    sent (snd (call upstream fuel self c w)) = (sent w ++ rs)%list /\
    Forall (fun r => req_headers r = required_headers (format key)) rs /\
    (single c = true -> List.length rs = 1%nat).
Proof.
  intros Hclass.
  destruct (class_headers settings self Hclass) as (key & Hkey & _ & Hh).
  exists key.
  destruct (single c) eqn:Hs.
  - destruct (call_single upstream self fuel c Hs) as (m & p & k & ->).
    exists [request_of self m p k]; repeat split; trivial.
    + apply webflow_request_sent.
    + now constructor.
  - destruct c; try discriminate.
    destruct all; [|discriminate].
    destruct (sends_list_items_all upstream
                (fun r => req_headers r = required_headers (format key))
                self collection_id fuel limit offset
                (fun _ => Hh) w) as (rs & Hrs & HP).
    exists rs; repeat split; trivial.
    discriminate.
Qed.

Lemma headers_on_every_request_witness :
  exists key rs,
    WEBFLOW_API_KEY demo_settings = Some key /\
    sent (snd (call (paged_server "c" (numbered 250)) 5 demo
                 (ListItems "c" 10 0 true) initial)) = (sent initial ++ rs)%list /\
    Forall (fun r => req_headers r = required_headers (format key)) rs /\
    (single (ListItems "c" 10 0 true) = true -> List.length rs = 1%nat).
Proof.
  apply (headers_on_every_request (paged_server "c" (numbered 250)) 5
           demo_settings demo (ListItems "c" 10 0 true) initial).
  reflexivity.
Defined.

(** C3, as stated, fails for an empty token: the class is defined, and a call
    sends its request with [Authorization: Bearer ] and nothing after it. *)
Lemma empty_token_counterexample :
  session (always (ok JNull)) 0 empty_token Info initial =
  (Ret JNull,
   {| sent := [ {| req_method := GET;
                   req_url := "https://api.webflow.com/info";
                   req_headers := [ ("Accept-Version", "1.0.0");
                                    ("Authorization", "Bearer ");
                                    ("content-type", "application/json") ];
                   req_json := None |} ];
      stdout := [JNull] |}).
Proof. reflexivity. Qed.

Lemma sends_call upstream (P : Request -> Prop) fuel self c :
  (forall m p k, P (request_of self m p k)) ->
  sends P (call upstream fuel self c).
Proof.
  intros Hone.
  destruct c; cbn [call]; try (apply sends_webflow_request, Hone).
  destruct all.
  - apply sends_list_items_all; intros o; apply Hone.
  - apply sends_webflow_request, Hone.
Qed.

Lemma bind_sent_first {A B} (P : Request -> Prop) (m : M A) (k : A -> M B) w r :
  sent (snd (m w)) = (sent w ++ [r])%list ->
  (forall a, sends P (k a)) ->
  exists rs, sent (snd (bind m k w)) = (sent w ++ r :: rs)%list.
Proof.
  intros Hm Hk; unfold bind.
  destruct (m w) as [[a|e|] w1]; cbn [snd] in *.
  - destruct (Hk a w1) as (rs & Hrs & _).
    exists rs; rewrite Hrs, Hm, <- app_assoc; reflexivity.
  - now exists [].
  - now exists [].
Qed.

Lemma call_first_request upstream fuel self c w :
  exists r rs,
    sent (snd (call upstream fuel self c w)) = (sent w ++ r :: rs)%list.
Proof.
  destruct (single c) eqn:Hs.
  - destruct (call_single upstream self fuel c Hs) as (m & p & k & ->).
    rewrite webflow_request_sent; now eexists _, [].
  - destruct c; try discriminate.
    destruct all; [|discriminate].
    cbn [call list_items].
    eexists.
    apply (bind_sent_first (fun _ => True)).
    + apply webflow_request_sent.
    + intros a.
      apply sends_bind; [apply sends_getitem|intros items].
      apply sends_bind; [apply sends_extend|intros all'].
      now apply sends_list_items_while.
Qed.

(** C3, amended: the token is looked up once, in the class body, and is not
    examined.  When the lookup raises (Django does for a setting that is not
    defined, and for settings that are not configured), that exception ends
    the program before any method runs: nothing is sent.  When the lookup
    gives a value, whatever it is, the empty string included, the call goes
    ahead: it sends at least one request, and every request it sends carries
    [Authorization: Bearer ] followed by that value. *)
Theorem token_is_only_looked_up upstream fuel settings c w :
  match getattr settings "WEBFLOW_API_KEY" with
  | inl e => session upstream fuel settings c w = (Raise e, w)
  | inr key =>
      exists rs,
        rs <> [] /\
        sent (snd (session upstream fuel settings c w)) = (sent w ++ rs)%list /\
        Forall (fun r => req_headers r =
                         [ ("Accept-Version", "1.0.0");
                           ("Authorization", "Bearer " ++ format key);
                           ("content-type", "application/json") ]) rs
  end.
Proof.
  destruct (getattr settings "WEBFLOW_API_KEY") as [e|key] eqn:Hkey.
  - unfold session, WebflowApi_class, bind, lift.
    now rewrite Hkey.
  - assert (Hclass : exists self, WebflowApi_class settings = Ret self).
    { unfold WebflowApi_class; rewrite Hkey; now eexists. }
    destruct Hclass as [self Hclass].
    destruct (class_headers settings self Hclass) as (key' & Hkey' & _ & Hh).
    unfold WEBFLOW_API_KEY in Hkey'; rewrite Hkey in Hkey'.
    injection Hkey' as <-.
    assert (Hrun : session upstream fuel settings c w
                   = call upstream fuel self c w).
    { unfold session, bind, lift; now rewrite Hclass. }
    rewrite Hrun.
    destruct (sends_call upstream (fun r => req_headers r = HEADERS self)
                fuel self c (fun _ _ _ => eq_refl) w) as (rs & Hsent & Hall).
    exists rs; split; [|split].
    + intros ->.
      destruct (call_first_request upstream fuel self c w) as (r & rs & Hr).
      rewrite Hsent in Hr.
      apply app_inv_head in Hr; discriminate Hr.
    + exact Hsent.
    + rewrite Hh in Hall; exact Hall.
Qed.

Lemma token_is_only_looked_up_witness :
  session (always (ok JNull)) 0 no_token (GetItem "c" "i") initial =
    (Raise (AttributeError "WEBFLOW_API_KEY"), initial) /\
  session (always (ok JNull)) 0 unconfigured (GetItem "c" "i") initial =
    (Raise (ImproperlyConfigured "WEBFLOW_API_KEY"), initial) /\
  exists rs,
    rs <> [] /\
    sent (snd (session (always (ok JNull)) 0 empty_token (GetItem "c" "i")
                 initial)) = (sent initial ++ rs)%list /\
    Forall (fun r => req_headers r =
                     [ ("Accept-Version", "1.0.0");
                       ("Authorization", "Bearer ");
                       ("content-type", "application/json") ]) rs.
Proof.
  split; [|split].
  - exact (token_is_only_looked_up (always (ok JNull)) 0 no_token
             (GetItem "c" "i") initial).
  - exact (token_is_only_looked_up (always (ok JNull)) 0 unconfigured
             (GetItem "c" "i") initial).
  - exact (token_is_only_looked_up (always (ok JNull)) 0 empty_token
             (GetItem "c" "i") initial).
Defined.

(** ** Bodies and paths *)

(** C8: [publish_site] is one POST to [sites/<site_id>/publish] whose JSON
    body is the object with the single key [domains] bound to the list it
    was given. *)
Theorem publish_site_request upstream self site_id (names : list string) w :
  sent (snd (publish_site upstream self site_id (JArr (map JStr names)) w)) =
  (sent w ++
   [ {| req_method := POST;
        req_url := WEBFLOW_URL self ++ "/sites/" ++ site_id ++ "/publish";
        req_headers := HEADERS self;
        req_json := Some (JObj [("domains", JArr (map JStr names))]) |} ])%list.
Proof.
  unfold publish_site.
  rewrite webflow_request_sent.
  reflexivity.
Qed.

Example publish_two_domains :
  map req_json
    (sent (snd (publish_site (always (ok (JObj [("queued", JBool true)]))) demo
                  "site" (JArr [JStr "a.com"; JStr "b.com"]) initial))) =
  [ Some (JObj [("domains", JArr [JStr "a.com"; JStr "b.com"])]) ].
Proof. reflexivity. Qed.

(** ** The full fetch *)

Lemma page_requests_S self cid offset n :
  page_requests self cid offset (S n) =
  page_request self cid 100 offset :: page_requests self cid (offset + 100) n.
Proof.
  unfold page_requests; cbn [seq map].
  rewrite <- seq_shift, map_map.
  f_equal.
  - f_equal; lia.
  - apply map_ext; intros k.
    f_equal; lia.
Qed.

Lemma page_requests_1 self cid offset :
  page_requests self cid offset 1 = [page_request self cid 100 offset].
Proof.
  unfold page_requests; cbn.
  do 3 f_equal; lia.
Qed.

Lemma page_request_url self cid offset :
  req_url (page_request self cid 100 offset) =
  WEBFLOW_URL self ++ "/collections/" ++ cid ++ "/items?limit=100&offset="
    ++ str_int offset.
Proof. reflexivity. Qed.

Section FullFetch.

Variable upstream : Upstream.
Variable self : WebflowApi.
Variable cid : string.

Lemma getitem_world v k w : snd (getitem v k w) = w.
Proof.
  destruct v; try reflexivity.
  unfold getitem; destruct (dict_get l k); reflexivity.
Qed.

Lemma setitem_world v k x w : snd (setitem v k x w) = w.
Proof. destruct v; reflexivity. Qed.

Lemma extend_world l v w : snd (extend l v w) = w.
Proof. destruct v; reflexivity. Qed.

Lemma int_lt_world n v w : snd (int_lt n v w) = w.
Proof. destruct v; reflexivity. Qed.

(** Runs the first step of a [bind] when that step leaves the world alone. *)
Ltac pure_bind m w L :=
  let E := fresh "E" in
  let w1 := fresh "w" in
  unfold bind at 1;
  destruct (m w) as [[?|?|] w1] eqn:E;
  apply (f_equal snd) in E; rewrite L in E; cbn in E; subst w1.

Lemma list_items_tail_sent all_items resp w :
  sent (snd ((resp <- setitem resp "items" (JArr all_items) ;;
              resp <- setitem resp "count" (JNum (len all_items)) ;;
              ret resp) w)) = sent w.
Proof.
  pure_bind (setitem resp "items" (JArr all_items)) w setitem_world;
    try reflexivity.
  pure_bind (setitem j "count" (JNum (len all_items))) w setitem_world;
    reflexivity.
Qed.

Lemma list_items_while_sent fuel :
  forall offset all_items resp w,
  exists n, (n <= fuel)%nat /\
    sent (snd (list_items_while upstream fuel self cid offset all_items resp w))
    = (sent w ++ page_requests self cid (offset + 100) n)%list.
Proof.
  induction fuel as [|fuel IH]; intros offset all_items resp w;
    cbn [list_items_while].
  - exists 0%nat; split; [lia|]; cbn [page_requests seq map].
    rewrite app_nil_r.
    pure_bind (getitem resp "total") w getitem_world; try reflexivity.
    pure_bind (int_lt (len all_items) j) w int_lt_world; try reflexivity.
    destruct b; [reflexivity|].
    apply list_items_tail_sent.
  - pure_bind (getitem resp "total") w getitem_world;
      try (exists 0%nat; split; [lia|cbn; now rewrite app_nil_r]).
    pure_bind (int_lt (len all_items) j) w int_lt_world;
      try (exists 0%nat; split; [lia|cbn; now rewrite app_nil_r]).
    destruct b.
    + unfold bind at 1, list_items_page.
      pose proof (webflow_request_sent upstream self GET
                    ("collections/" ++ cid ++ "/items?limit=" ++ str_int 100
                       ++ "&offset=" ++ str_int (offset + 100)) None w) as Hs.
      fold (page_request self cid 100 (offset + 100)) in Hs.
      destruct (_webflow_request upstream self GET _ None w) as [[a|e|] w1];
        cbn [snd] in Hs.
      * assert (Hone : forall o : Outcome json,
                   exists n, (n <= S fuel)%nat /\
                     sent (snd (o, w1)) =
                     (sent w ++ page_requests self cid (offset + 100) n)%list).
        { intros o; exists 1%nat; split; [lia|now rewrite page_requests_1]. }
        pure_bind (getitem a "items") w1 getitem_world; try apply Hone.
        pure_bind (extend all_items j0) w1 extend_world; try apply Hone.
        destruct (IH (offset + 100) l a w1) as (n & Hn & Hsent).
        exists (S n); split; [lia|].
        rewrite Hsent, Hs, page_requests_S, <- app_assoc.
        reflexivity.
      * exists 1%nat; split; [lia|now rewrite page_requests_1].
      * exists 1%nat; split; [lia|now rewrite page_requests_1].
    + exists 0%nat; split; [lia|]; cbn [page_requests seq map].
      rewrite app_nil_r.
      apply list_items_tail_sent.
Qed.

(** *** The loop, an iteration at a time *)

Lemma webflow_request_ok method path kwargs w j :
  upstream (sent w) (request_of self method path kwargs) = Responds (ok j) ->
  _webflow_request upstream self method path kwargs w =
  (Ret j, {| sent := (sent w ++ [request_of self method path kwargs])%list;
             stdout := (stdout w ++ [j])%list |}).
Proof.
  intros Hreply.
  rewrite webflow_request_eq; cbn.
  now rewrite Hreply.
Qed.

Lemma list_items_first fuel limit offset w env items total :
  upstream (sent w) (page_request self cid 100 offset)
    = Responds (ok (JObj env)) ->
  envelope env items total ->
  list_items upstream fuel self cid limit offset true w =
  list_items_while upstream fuel self cid offset items (JObj env)
    {| sent := (sent w ++ [page_request self cid 100 offset])%list;
       stdout := (stdout w ++ [JObj env])%list |}.
Proof.
  intros Hreply [Hitems _].
  cbn [list_items]; unfold bind at 1, list_items_page.
  apply webflow_request_ok in Hreply; rewrite Hreply.
  unfold bind at 1, getitem; rewrite Hitems; cbn.
  reflexivity.
Qed.

Lemma list_items_while_continue fuel offset all_items env total w
    env' items total' :
  dict_get env "total" = Some (JNum total) ->
  len all_items < total ->
  upstream (sent w) (page_request self cid 100 (offset + 100))
    = Responds (ok (JObj env')) ->
  envelope env' items total' ->
  list_items_while upstream (S fuel) self cid offset all_items (JObj env) w =
  list_items_while upstream fuel self cid (offset + 100)
    (all_items ++ items)%list (JObj env')
    {| sent := (sent w ++ [page_request self cid 100 (offset + 100)])%list;
       stdout := (stdout w ++ [JObj env'])%list |}.
Proof.
  intros Htotal Hlt Hreply [Hitems _].
  cbn [list_items_while]; unfold bind at 1, getitem; rewrite Htotal; cbn.
  unfold bind at 1; cbn.
  replace (len all_items <? total) with true by lia.
  unfold bind at 1, list_items_page.
  apply webflow_request_ok in Hreply; rewrite Hreply.
  unfold bind at 1, getitem; rewrite Hitems; cbn.
  reflexivity.
Qed.

Lemma list_items_while_stop fuel offset all_items env total w :
  dict_get env "total" = Some (JNum total) ->
  total <= len all_items ->
  list_items_while upstream fuel self cid offset all_items (JObj env) w =
  (Ret (merged env all_items), w).
Proof.
  intros Htotal Hge.
  destruct fuel; cbn [list_items_while];
    unfold bind at 1, getitem; rewrite Htotal; cbn;
    unfold bind at 1; cbn;
    replace (len all_items <? total) with false by lia;
    reflexivity.
Qed.

Lemma list_items_while_starved offset all_items env total w :
  dict_get env "total" = Some (JNum total) ->
  len all_items < total ->
  list_items_while upstream 0 self cid offset all_items (JObj env) w =
  (OutOfFuel, w).
Proof.
  intros Htotal Hlt.
  cbn [list_items_while]; unfold bind at 1, getitem; rewrite Htotal; cbn.
  unfold bind at 1; cbn.
  replace (len all_items <? total) with true by lia.
  reflexivity.
Qed.

Lemma len_app (l l' : list json) : len (l ++ l') = len l + len l'.
Proof. unfold len; rewrite length_app; lia. Qed.

Lemma len_firstn_100 (db : list json) (k : nat) :
  (k + 100 <= List.length db)%nat -> len (firstn 100 (skipn k db)) = 100.
Proof.
  intros Hk; unfold len.
  rewrite length_firstn, length_skipn; lia.
Qed.

(** C1: against a service that holds 250 items, serves them in pages of 100
    and reports [total = 250] on each page, the full fetch from offset 0 is
    exactly three page requests, at offsets 0, 100 and 200; it returns the
    envelope of the last page with [items] replaced by the 250 items in the
    order of the service and [count] set to 250. *)
Theorem full_fetch_250 fuel limit w (db : list json) env0 env1 env2 :
  let r0 := page_request self cid 100 0 in
  let r1 := page_request self cid 100 100 in
  let r2 := page_request self cid 100 200 in
  List.length db = 250%nat ->
  (2 <= fuel)%nat ->
  upstream (sent w) r0 = Responds (ok (JObj env0)) ->
  upstream (sent w ++ [r0])%list r1 = Responds (ok (JObj env1)) ->
  upstream (sent w ++ [r0; r1])%list r2 = Responds (ok (JObj env2)) ->
  envelope env0 (firstn 100 db) 250 ->
  envelope env1 (firstn 100 (skipn 100 db)) 250 ->
  envelope env2 (firstn 100 (skipn 200 db)) 250 ->
  list_items upstream fuel self cid limit 0 true w =
  (Ret (JObj (dict_set (dict_set env2 "items" (JArr db)) "count" (JNum 250))),
   {| sent := (sent w ++ [r0; r1; r2])%list;
      stdout := (stdout w ++ [JObj env0; JObj env1; JObj env2])%list |}).
Proof.
  intros r0 r1 r2 Hlen Hfuel H0 H1 H2 E0 E1 E2.
  destruct fuel as [|[|fuel']]; try lia.
  assert (L0 : len (firstn 100 db) = 100)
    by (apply (len_firstn_100 db 0); lia).
  assert (L1 : len (firstn 100 (skipn 100 db)) = 100)
    by (apply (len_firstn_100 db 100); lia).
  rewrite (list_items_first _ limit 0 w env0 _ 250 H0 E0).
  rewrite (list_items_while_continue _ 0 _ env0 250 _ env1
             (firstn 100 (skipn 100 db)) 250); cbn [sent stdout];
    try assumption; try apply E0.
  2:{ rewrite L0; lia. }
  rewrite (list_items_while_continue _ (0 + 100) _ env1 250 _ env2
             (firstn 100 (skipn 200 db)) 250); cbn [sent stdout];
    try apply E1; try assumption.
  2:{ rewrite len_app, L0, L1; lia. }
  2:{ rewrite <- app_assoc; exact H2. }
  assert (Hdb : ((firstn 100 db ++ firstn 100 (skipn 100 db))
                   ++ firstn 100 (skipn 200 db))%list = db).
  { replace (firstn 100 (skipn 200 db)) with (skipn 100 (skipn 100 db)).
    - rewrite <- app_assoc, firstn_skipn.
      apply (firstn_skipn 100 db).
    - rewrite skipn_skipn; cbn [Nat.add].
      symmetry; apply firstn_all2.
      rewrite length_skipn; lia. }
  rewrite Hdb.
  rewrite (list_items_while_stop _ _ db env2 250);
    [| apply E2 | unfold len; lia].
  unfold merged, len; rewrite Hlen.
  rewrite <- !app_assoc.
  reflexivity.
Qed.

(** A loop that is fed empty pages while it is short of [total] makes no
    progress: it uses up any fuel, one more request per unit. *)
Lemma list_items_while_spins total fuel :
  forall offset all_items env w,
  dict_get env "total" = Some (JNum total) ->
  len all_items < total ->
  (forall log o, offset < o ->
     exists env', upstream log (page_request self cid 100 o)
                    = Responds (ok (JObj env')) /\
                  envelope env' [] total) ->
  fst (list_items_while upstream fuel self cid offset all_items (JObj env) w)
    = OutOfFuel /\
  sent (snd (list_items_while upstream fuel self cid offset all_items
               (JObj env) w))
    = (sent w ++ page_requests self cid (offset + 100) fuel)%list.
Proof.
  induction fuel as [|fuel IH]; intros offset all_items env w Htotal Hlt Hup.
  - rewrite (list_items_while_starved _ _ env total) by assumption.
    cbn; now rewrite app_nil_r.
  - destruct (Hup (sent w) (offset + 100)) as (env' & Hreply & Henv);
      [lia|].
    rewrite (list_items_while_continue _ _ _ env total _ env' [] total)
      by assumption.
    rewrite app_nil_r.
    destruct (IH (offset + 100) all_items env'
                {| sent := (sent w ++ [page_request self cid 100 (offset + 100)])%list;
                   stdout := (stdout w ++ [JObj env'])%list |})
      as [Hout Hsent]; [apply Henv|assumption| |].
    + intros log o Ho; apply Hup; lia.
    + split; [exact Hout|].
      rewrite Hsent, page_requests_S; cbn [sent].
      now rewrite <- app_assoc.
Qed.

(** C9: with [all=True] the [limit] argument plays no part.  Whatever its
    value, the requests sent are page requests with [limit=100], at the
    offsets [offset], [offset + 100], ... *)
Theorem limit_ignored_when_all fuel limit offset w :
  list_items upstream fuel self cid limit offset true w =
  list_items upstream fuel self cid 100 offset true w /\
  exists n, (n <= fuel)%nat /\
    sent (snd (list_items upstream fuel self cid limit offset true w)) =
    (sent w ++ page_requests self cid offset (S n))%list /\
    Forall (fun r => exists o,
              req_url r =
              WEBFLOW_URL self ++ "/collections/" ++ cid
                ++ "/items?limit=100&offset=" ++ str_int o)
           (page_requests self cid offset (S n)).
Proof.
  split; [reflexivity|].
  assert (HF : forall n, Forall (fun r => exists o,
              req_url r =
              WEBFLOW_URL self ++ "/collections/" ++ cid
                ++ "/items?limit=100&offset=" ++ str_int o)
           (page_requests self cid offset n)).
  { intros n; unfold page_requests.
    apply Forall_map, Forall_forall; intros k _.
    eexists; apply page_request_url. }
  cbn [list_items]; unfold bind at 1, list_items_page.
  pose proof (webflow_request_sent upstream self GET
                ("collections/" ++ cid ++ "/items?limit=" ++ str_int 100
                   ++ "&offset=" ++ str_int offset) None w) as Hs.
  fold (page_request self cid 100 offset) in Hs.
  pose proof (page_requests_1 self cid offset) as Hfirst.
  destruct (_webflow_request upstream self GET _ None w) as [[a|e|] w1];
    cbn [snd] in Hs.
  - assert (Hone : forall o : Outcome json,
               exists n, (n <= fuel)%nat /\
                 sent (snd (o, w1)) =
                 (sent w ++ page_requests self cid offset (S n))%list /\
                 Forall (fun r => exists o,
                    req_url r =
                    WEBFLOW_URL self ++ "/collections/" ++ cid
                      ++ "/items?limit=100&offset=" ++ str_int o)
                  (page_requests self cid offset (S n))).
    { intros o; exists 0%nat; split; [lia|]; split; [|apply HF].
      now rewrite Hfirst. }
    pure_bind (getitem a "items") w1 getitem_world; try apply Hone.
    pure_bind (extend [] j) w1 extend_world; try apply Hone.
    destruct (list_items_while_sent fuel offset l a w1) as (n & Hn & Hsent).
    exists n; split; [lia|]; split; [|apply HF].
    rewrite Hsent, Hs, page_requests_S, <- app_assoc.
    reflexivity.
  - exists 0%nat; split; [lia|]; split; [|apply HF].
    now rewrite Hfirst.
  - exists 0%nat; split; [lia|]; split; [|apply HF].
    now rewrite Hfirst.
Qed.

End FullFetch.

(** ** The simulated service *)

Lemma append_assoc (a b c : string) : (a ++ b) ++ c = a ++ (b ++ c).
Proof.
  induction a as [|x a IH]; cbn; [reflexivity|].
  now rewrite IH.
Qed.

Lemma append_empty_r (a : string) : a ++ "" = a.
Proof.
  induction a as [|x a IH]; cbn; [reflexivity|].
  now rewrite IH.
Qed.

Lemma strip_prefix_app (p s : string) : strip_prefix p (p ++ s) = Some s.
Proof.
  induction p as [|a p IH]; cbn; [reflexivity|].
  now rewrite Ascii.eqb_refl.
Qed.

Lemma parse_int_str_int (n : Z) : parse_int (str_int n) = Some n.
Proof.
  unfold parse_int, str_int.
  rewrite NilZero.isi.
  - cbn; f_equal; apply DecimalZ.of_to.
  - destruct n; cbn; try discriminate.
    intros [= H]; now apply DecimalPos.Unsigned.to_uint_nonnil in H.
  - destruct n; cbn; try discriminate.
    intros [= H]; now apply DecimalPos.Unsigned.to_uint_nonnil in H.
Qed.

(** The simulated service answers the page requests of a configured client
    with the page that starts at the offset asked for. *)
Lemma paged_server_page self cid db log offset :
  WEBFLOW_URL self = "https://api.webflow.com" ->
  0 <= offset ->
  paged_server cid db log (page_request self cid 100 offset) =
  Responds (ok (page db offset)).
Proof.
  intros Hurl Hoff.
  unfold paged_server, page_request, request_of; cbn [req_method req_url].
  rewrite Hurl.
  change (str_int 100) with "100".
  replace ("https://api.webflow.com" ++ "/" ++ "collections/" ++ cid
             ++ "/items?limit=" ++ "100" ++ "&offset=" ++ str_int offset)
    with (("https://api.webflow.com/collections/" ++ cid
             ++ "/items?limit=100&offset=") ++ str_int offset).
  - rewrite strip_prefix_app, parse_int_str_int.
    replace (0 <=? offset) with true by lia.
    reflexivity.
  - rewrite !append_assoc.
    reflexivity.
Qed.

Lemma page_envelope db offset :
  envelope (page_env db offset) (firstn 100 (skipn (Z.to_nat offset) db))
    (len db).
Proof. split; reflexivity. Qed.

Section FromAnOffset.

Variable self : WebflowApi.
Variable cid : string.
Variable db : list json.
Variable start : Z.

Hypothesis configured : WEBFLOW_URL self = "https://api.webflow.com".
Hypothesis positive : 0 < start.
Hypothesis nonempty : db <> [].

(** The items gathered so far are items of [db] from [start] on, so there
    are fewer of them than [total] says, and the pages past the end bring
    nothing: the loop never stops. *)
Lemma list_items_while_short fuel :
  forall offset all_items env w,
  dict_get env "total" = Some (JNum (len db)) ->
  start <= offset ->
  len all_items + start <= Z.max start (Z.min (offset + 100) (len db)) ->
  fst (list_items_while (paged_server cid db) fuel self cid offset all_items
         (JObj env) w) = OutOfFuel /\
  sent (snd (list_items_while (paged_server cid db) fuel self cid offset
               all_items (JObj env) w))
    = (sent w ++ page_requests self cid (offset + 100) fuel)%list.
Proof.
  assert (Hdb : 0 < len db).
  { destruct db; [contradiction|]; unfold len; cbn [List.length]; lia. }
  induction fuel as [|fuel IH]; intros offset all_items env w Htotal Hle Hinv.
  - rewrite (list_items_while_starved _ _ _ _ _ env (len db))
      by (trivial; lia).
    cbn; now rewrite app_nil_r.
  - rewrite (list_items_while_continue _ _ _ _ _ _ env (len db) _
               (page_env db (offset + 100))
               (firstn 100 (skipn (Z.to_nat (offset + 100)) db)) (len db));
      trivial; try lia.
    2:{ apply paged_server_page; [assumption|lia]. }
    2:{ apply page_envelope. }
    destruct (IH (offset + 100)
                (all_items ++ firstn 100 (skipn (Z.to_nat (offset + 100)) db))%list
                (page_env db (offset + 100))
                {| sent := (sent w ++ [page_request self cid 100 (offset + 100)])%list;
                   stdout := (stdout w ++ [JObj (page_env db (offset + 100))])%list |})
      as [Hout Hsent]; [reflexivity|lia| |].
    + rewrite len_app; unfold len in *.
      rewrite length_firstn, length_skipn; lia.
    + split; [exact Hout|].
      rewrite Hsent, page_requests_S; cbn [sent].
      now rewrite <- app_assoc.
Qed.

Lemma list_items_all_short fuel limit w :
  fst (list_items (paged_server cid db) fuel self cid limit start true w)
    = OutOfFuel /\
  sent (snd (list_items (paged_server cid db) fuel self cid limit start true w))
    = (sent w ++ page_requests self cid start (S fuel))%list.
Proof.
  rewrite (list_items_first _ _ _ _ _ _ _ (page_env db start)
             (firstn 100 (skipn (Z.to_nat start) db)) (len db)).
  - destruct (list_items_while_short fuel start
                (firstn 100 (skipn (Z.to_nat start) db)) (page_env db start)
                {| sent := (sent w ++ [page_request self cid 100 start])%list;
                   stdout := (stdout w ++ [JObj (page_env db start)])%list |})
      as [Hout Hsent]; [reflexivity|lia| |].
    + unfold len; rewrite length_firstn, length_skipn; lia.
    + split; [exact Hout|].
      rewrite Hsent, page_requests_S; cbn [sent].
      now rewrite <- app_assoc.
  - apply paged_server_page; [assumption|lia].
  - apply page_envelope.
Qed.

End FromAnOffset.

Lemma firstn_plus {A} (a b : nat) (l : list A) :
  firstn (a + b) l = (firstn a l ++ firstn b (skipn a l))%list.
Proof.
  revert l; induction a as [|a IH]; intros l; [reflexivity|].
  destruct l as [|x l]; cbn.
  - now rewrite firstn_nil.
  - now rewrite IH.
Qed.

Section FromTheStart.

Variable self : WebflowApi.
Variable cid : string.
Variable db : list json.

Hypothesis configured : WEBFLOW_URL self = "https://api.webflow.com".

(** From offset 0 the items gathered so far are a prefix of [db] that grows
    by a page per iteration, so the loop stops, with all of [db]. *)
Lemma list_items_while_complete fuel :
  forall offset all_items env w,
  0 <= offset ->
  dict_get env "total" = Some (JNum (len db)) ->
  all_items = firstn (Z.to_nat (offset + 100)) db ->
  len db - (offset + 100) <= 100 * Z.of_nat fuel ->
  exists env' w',
    list_items_while (paged_server cid db) fuel self cid offset all_items
      (JObj env) w = (Ret (merged env' db), w').
Proof.
  induction fuel as [|fuel IH]; intros offset all_items env w Hoff Htotal
    Hall Hfuel.
  - exists env, w.
    assert (Hdb : all_items = db).
    { subst all_items; apply firstn_all2; unfold len in Hfuel; lia. }
    rewrite Hdb.
    apply (list_items_while_stop _ _ _ _ _ _ env (len db)); trivial; lia.
  - destruct (Z.ltb_spec (len all_items) (len db)) as [Hlt|Hge].
    + rewrite (list_items_while_continue _ _ _ _ _ _ env (len db) _
                 (page_env db (offset + 100))
                 (firstn 100 (skipn (Z.to_nat (offset + 100)) db)) (len db));
        trivial.
      2:{ apply paged_server_page; [assumption|lia]. }
      2:{ apply page_envelope. }
      apply IH; try reflexivity; try lia.
      subst all_items.
      replace (Z.to_nat (offset + 100 + 100))
        with (Z.to_nat (offset + 100) + 100)%nat by lia.
      now rewrite firstn_plus.
    + exists env, w.
      assert (Hdb : all_items = db).
      { subst all_items; apply firstn_all2; unfold len in Hge.
        rewrite length_firstn in Hge; lia. }
      rewrite Hdb.
      apply (list_items_while_stop _ _ _ _ _ _ env (len db)); trivial; lia.
Qed.

(** A full fetch from offset 0 against a consistent service returns every
    item, in order, once the fuel covers the pages. *)
Lemma list_items_all_complete fuel limit w :
  len db <= 100 * (Z.of_nat fuel + 1) ->
  exists env' w',
    list_items (paged_server cid db) fuel self cid limit 0 true w =
    (Ret (merged env' db), w').
Proof.
  intros Hfuel.
  rewrite (list_items_first _ _ _ _ _ _ _ (page_env db 0)
             (firstn 100 (skipn (Z.to_nat 0) db)) (len db)).
  - apply list_items_while_complete; try reflexivity; lia.
  - apply paged_server_page; [assumption|lia].
  - apply page_envelope.
Qed.

End FromTheStart.

Example full_fetch_of_730 :
  exists env' w',
    list_items (paged_server "c" (numbered 730)) 7 demo "c" 100 0 true initial
    = (Ret (merged env' (numbered 730)), w').
Proof.
  apply list_items_all_complete; [reflexivity|].
  unfold len, numbered; rewrite length_map, length_seq; lia.
Qed.

(** The service that answers every request with an empty page and a total
    of one keeps any full fetch going. *)
Example full_fetch_of_nothing fuel cid limit offset w :
  fst (list_items
         (always (ok (JObj [("items", JArr []); ("total", JNum 1)])))
         fuel demo cid limit offset true w) = OutOfFuel.
Proof.
  rewrite (list_items_first _ _ _ _ _ _ _
             [("items", JArr []); ("total", JNum 1)] [] 1);
    [|reflexivity|split; reflexivity].
  apply (list_items_while_spins _ demo cid 1);
    [reflexivity|reflexivity|].
  intros log o _.
  exists [("items", JArr []); ("total", JNum 1)].
  split; [reflexivity|split; reflexivity].
Qed.

(** C2 does not hold of the code: the loop has no guard for a page without
    items.  A consistent service with 150 items, asked for everything from
    offset 100 on, gives 50 items and then empty pages, each reporting
    [total = 150]; the call never returns, whatever the fuel, and every unit
    of fuel is one more request. *)
Theorem empty_page_loops_forever fuel limit w :
  fst (list_items (paged_server "c" (numbered 150)) fuel demo "c" limit 100
         true w) = OutOfFuel /\
  sent (snd (list_items (paged_server "c" (numbered 150)) fuel demo "c" limit
               100 true w))
    = (sent w ++ page_requests demo "c" 100 (S fuel))%list.
Proof.
  apply list_items_all_short; [reflexivity|lia|discriminate].
Qed.

Lemma full_fetch_250_witness :
  list_items (paged_server "c" (numbered 250)) 2 demo "c" 7 0 true initial =
  (Ret (JObj [ ("items", JArr (numbered 250));
               ("count", JNum 250);
               ("limit", JNum 100);
               ("offset", JNum 200);
               ("total", JNum 250) ]),
   {| sent := [ page_request demo "c" 100 0;
                page_request demo "c" 100 100;
                page_request demo "c" 100 200 ];
      stdout := [ page (numbered 250) 0;
                  page (numbered 250) 100;
                  page (numbered 250) 200 ] |}).
Proof.
  apply (full_fetch_250 (paged_server "c" (numbered 250)) demo "c" 2 7 initial
           (numbered 250)
           [ ("items", JArr (firstn 100 (numbered 250)));
             ("count", JNum 100); ("limit", JNum 100); ("offset", JNum 0);
             ("total", JNum 250) ]
           [ ("items", JArr (firstn 100 (skipn 100 (numbered 250))));
             ("count", JNum 100); ("limit", JNum 100); ("offset", JNum 100);
             ("total", JNum 250) ]
           [ ("items", JArr (firstn 100 (skipn 200 (numbered 250))));
             ("count", JNum 50); ("limit", JNum 100); ("offset", JNum 200);
             ("total", JNum 250) ]).
  - reflexivity.
  - lia.
  - vm_compute; reflexivity.
  - vm_compute; reflexivity.
  - vm_compute; reflexivity.
  - split; reflexivity.
  - split; reflexivity.
  - split; reflexivity.
Defined.


(** ** Query strings *)

Lemma occurs_app c a b : occurs c (a ++ b) = occurs c a || occurs c b.
Proof.
  induction a as [|x a IH]; cbn; [reflexivity|].
  now rewrite IH, orb_assoc.
Qed.

Lemma split_first_absent c a :
  occurs c a = false -> split_first c a = None.
Proof.
  induction a as [|x a IH]; cbn; [reflexivity|].
  intros H; apply orb_false_elim in H as [Hx Ha].
  now rewrite Hx, IH.
Qed.

Lemma split_first_app c a b :
  occurs c a = false -> split_first c (a ++ String c b) = Some (a, b).
Proof.
  induction a as [|x a IH]; cbn.
  - now rewrite Ascii.eqb_refl.
  - intros H; apply orb_false_elim in H as [Hx Ha].
    now rewrite Hx, IH.
Qed.

Lemma split_all_absent c a :
  occurs c a = false -> split_all c a = [a].
Proof.
  induction a as [|x a IH]; cbn; [reflexivity|].
  intros H; apply orb_false_elim in H as [Hx Ha].
  now rewrite Hx, IH.
Qed.

Lemma split_all_app c a b :
  occurs c a = false ->
  split_all c (a ++ String c b) = a :: split_all c b.
Proof.
  induction a as [|x a IH]; cbn.
  - now rewrite Ascii.eqb_refl.
  - intros H; apply orb_false_elim in H as [Hx Ha].
    now rewrite Hx, IH.
Qed.

Lemma occurs_uint c d :
  not_numeric c = true -> occurs c (NilEmpty.string_of_uint d) = false.
Proof.
  unfold not_numeric; cbn; intros H.
  apply negb_true_iff in H.
  repeat (apply orb_false_elim in H as [? H]).
  induction d; cbn; trivial; apply orb_false_intro; assumption.
Qed.

Lemma occurs_str_int c n :
  not_numeric c = true -> occurs c (str_int n) = false.
Proof.
  intros H; unfold str_int.
  assert (Hu : forall d, occurs c (NilZero.string_of_uint d) = false).
  { intros d; destruct d; try apply (occurs_uint c _ H).
    revert H; unfold not_numeric; cbn; intros H.
    apply negb_true_iff in H.
    repeat (apply orb_false_elim in H as [? H]).
    apply orb_false_intro; trivial. }
  destruct (Z.to_int n) as [d|d]; cbn; [apply Hu|].
  apply orb_false_intro; [|apply Hu].
  revert H; unfold not_numeric; cbn; intros H.
  apply negb_true_iff in H.
  repeat (apply orb_false_elim in H as [? H]); assumption.
Qed.

Lemma clean_spec id :
  clean id = true -> occurs "?" id = false /\ occurs "#" id = false.
Proof.
  unfold clean; intros H.
  apply andb_true_iff in H as [H1 H2].
  now apply negb_true_iff in H1, H2.
Qed.

Lemma strip_fragment_absent url :
  occurs "#" url = false -> strip_fragment url = url.
Proof.
  intros H; unfold strip_fragment.
  now rewrite split_first_absent.
Qed.

(** A path and a query that hold no stray [?] or [#] read back as they
    were put together. *)
Lemma read_back_query path q :
  occurs "?" path = false ->
  occurs "#" path = false ->
  occurs "#" q = false ->
  url_path (path ++ String "?" q) = path /\
  query_string (path ++ String "?" q) = Some q.
Proof.
  intros Hq Hf Hfq.
  unfold url_path, query_string.
  rewrite strip_fragment_absent
    by (rewrite occurs_app; cbn; now rewrite Hf, Hfq).
  now rewrite split_first_app.
Qed.

Lemma read_back_no_query path :
  occurs "?" path = false ->
  occurs "#" path = false ->
  url_path path = path /\ query_string path = None.
Proof.
  intros Hq Hf.
  unfold url_path, query_string.
  rewrite strip_fragment_absent by assumption.
  now rewrite split_first_absent.
Qed.

(** [str] of an int is its decimal notation. *)
Example str_int_examples :
  str_int 0 = "0" /\ str_int 100 = "100" /\ str_int (-25) = "-25" /\
  str_int 1234567890 = "1234567890".
Proof. repeat split. Qed.

(** C7, as stated, fails for a collection id that holds a question mark: the
    query string starts inside the id, and [limit] is not one of its
    parameters. *)
Lemma list_items_single_page_counterexample :
  map (fun r => query_parameters (req_url r))
    (sent (snd (list_items (always (ok JNull)) 0 demo "c?x=1" 5 0 false
                  initial))) =
  [ [("x", "1/items?limit=5"); ("offset", "0")] ].
Proof. reflexivity. Qed.

(** C7, amended: for every [limit] and [offset], [list_items] with
    [all=False] is a single GET of the base URL followed by
    [/collections/<id>/items?limit=<limit>&offset=<offset>], the numbers in
    decimal and the id as it was given.  When the id holds neither [?] nor
    [#], the query string of that URL is exactly the [limit] and the
    [offset].  A reply with a JSON body and a status that is not an error is
    returned decoded, as it is. *)
Theorem list_items_single_page upstream fuel settings self cid limit offset w :
  WebflowApi_class settings = Ret self ->
  let L := str_int limit in
  let O := str_int offset in
  let url := "https://api.webflow.com/collections/" ++ cid ++ "/items?limit="
               ++ L ++ "&offset=" ++ O in
  let r := {| req_method := GET; req_url := url;
              req_headers := HEADERS self; req_json := None |} in
  parse_int L = Some limit /\
  parse_int O = Some offset /\
  sent (snd (list_items upstream fuel self cid limit offset false w)) =
    (sent w ++ [r])%list /\
  (clean cid = true ->
   url_path url = "https://api.webflow.com/collections/" ++ cid ++ "/items" /\
   query_string url = Some ("limit=" ++ L ++ "&offset=" ++ O) /\
   query_parameters url = [("limit", L); ("offset", O)]) /\
  (forall res j,
     upstream (sent w) r = Responds res ->
     body res = Json j ->
     is_error res = false ->
     list_items upstream fuel self cid limit offset false w =
     (Ret j, {| sent := (sent w ++ [r])%list;
                stdout := (stdout w ++ [j])%list |})).
Proof.
  intros Hclass L O url r.
  destruct (class_headers settings self Hclass) as (key & _ & Hurl & _).
  assert (Hreq : request_of self GET
                   ("collections/" ++ cid ++ "/items?limit=" ++ str_int limit
                      ++ "&offset=" ++ str_int offset) None = r).
  { unfold request_of; rewrite Hurl; reflexivity. }
  split; [apply parse_int_str_int|].
  split; [apply parse_int_str_int|].
  split; [|split].
  - cbn [list_items]; unfold list_items_page.
    now rewrite webflow_request_sent, Hreq.
  - intros Hclean.
    apply clean_spec in Hclean as [Hq Hf].
    assert (Hsplit : url = ("https://api.webflow.com/collections/" ++ cid
                              ++ "/items")
                           ++ String "?" ("limit=" ++ L ++ "&offset=" ++ O))
      by (subst url; rewrite !append_assoc; reflexivity).
    destruct (read_back_query
                ("https://api.webflow.com/collections/" ++ cid ++ "/items")
                ("limit=" ++ L ++ "&offset=" ++ O)) as [Hpath Hquery].
    + rewrite !occurs_app, Hq; reflexivity.
    + rewrite !occurs_app, Hf; reflexivity.
    + subst L O; rewrite !occurs_app, !occurs_str_int; reflexivity.
    + rewrite <- Hsplit in Hpath, Hquery.
      split; [exact Hpath|]; split; [exact Hquery|].
      unfold query_parameters; rewrite Hquery.
      replace ("limit=" ++ L ++ "&offset=" ++ O)
        with (("limit=" ++ L) ++ String "&" ("offset=" ++ O))
        by (rewrite !append_assoc; reflexivity).
      subst L O.
      rewrite split_all_app
        by (rewrite occurs_app, occurs_str_int; reflexivity).
      rewrite split_all_absent
        by (rewrite occurs_app, occurs_str_int; reflexivity).
      reflexivity.
  - intros res j Hreply Hbody Hok.
    cbn [list_items]; unfold list_items_page.
    rewrite webflow_request_eq; cbv zeta.
    rewrite Hreq, Hreply, Hbody, Hok.
    reflexivity.
Qed.

Lemma list_items_single_page_witness :
  let r := {| req_method := GET;
              req_url := "https://api.webflow.com/collections/c/items?limit=20&offset=40";
              req_headers := HEADERS demo; req_json := None |} in
  parse_int "20" = Some 20 /\
  parse_int "40" = Some 40 /\
  sent (snd (list_items (always (ok last_item_page)) 0 demo "c" 20 40
               false initial)) = [r] /\
  url_path (req_url r) = "https://api.webflow.com/collections/c/items" /\
  query_string (req_url r) = Some "limit=20&offset=40" /\
  query_parameters (req_url r) = [("limit", "20"); ("offset", "40")] /\
  list_items (always (ok last_item_page)) 0 demo "c" 20 40 false initial =
  (Ret (JObj [ ("items", JArr [JStr "item-40"]); ("count", JNum 1);
               ("limit", JNum 20); ("offset", JNum 40);
               ("total", JNum 41) ]),
   {| sent := [r]; stdout := [last_item_page] |}).
Proof.
  intros r.
  destruct (list_items_single_page (always (ok last_item_page)) 0
              demo_settings demo "c" 20 40 initial eq_refl)
    as (HL & HO & Hsent & Hquery & Hret).
  destruct (Hquery eq_refl) as (Hp & Hq & Hps).
  refine (conj HL (conj HO (conj Hsent (conj Hp (conj Hq (conj Hps _)))))).
  exact (Hret (ok last_item_page) last_item_page eq_refl eq_refl eq_refl).
Defined.

(** *** Item writes *)

(** C4, as stated, fails for an item id that holds a question mark: with
    [live=False] the request has [live=true] as its query string all the
    same. *)
Lemma item_writes_counterexample :
  map (fun r => query_string (req_url r))
    (sent (snd (update_item (always (ok JNull)) demo "c" "i?live=true"
                  (JObj [("name", JStr "n")]) false initial))) =
  [ Some "live=true" ].
Proof. reflexivity. Qed.

(** C4, amended: for every payload [P] and whatever the ids, [create_item],
    [update_item] and [patch_item] each send one request whose JSON body is
    [P] under the single key [fields], to the URL of the collection's items
    (of the item, for the two others) followed by [?live=true] when [live]
    is set and by nothing when it is not; the ids go into the URL as they
    are.  When the ids hold neither [?] nor [#], the query string of that
    URL is [live=true] if [live] is set and is absent if it is not. *)
Theorem item_writes upstream settings self cid item_id P (live : bool) w :
  WebflowApi_class settings = Ret self ->
  let items := "https://api.webflow.com/collections/" ++ cid ++ "/items" in
  let item := items ++ "/" ++ item_id in
  let suffix := if live then "?live=true" else "" in
  writes (create_item upstream self cid (JObj P) live) w self POST
    (items ++ suffix) P /\
  writes (update_item upstream self cid item_id (JObj P) live) w self PUT
    (item ++ suffix) P /\
  writes (patch_item upstream self cid item_id (JObj P) live) w self PATCH
    (item ++ suffix) P /\
  (clean cid = true -> live_only (items ++ suffix) items live) /\
  (clean cid = true -> clean item_id = true ->
   live_only (item ++ suffix) item live).
Proof.
  intros Hclass items item suffix.
  destruct (class_headers settings self Hclass) as (key & _ & Hurl & _).
  assert (Hlive : forall path,
            occurs "?" path = false -> occurs "#" path = false ->
            live_only (path ++ suffix) path live).
  { intros path Hq Hf; unfold live_only, query_parameters; subst suffix.
    destruct live.
    - destruct (read_back_query path "live=true" Hq Hf eq_refl) as [Hp Hqs].
      change (path ++ "?live=true") with (path ++ String "?" "live=true").
      rewrite Hp, Hqs; repeat split.
    - rewrite append_empty_r.
      destruct (read_back_no_query path Hq Hf) as [Hp Hqs].
      rewrite Hp, Hqs; repeat split. }
  unfold writes, create_item, update_item, patch_item.
  rewrite !webflow_request_sent; unfold request_of; rewrite Hurl.
  subst items item suffix.
  split; [|split; [|split; [|split]]].
  - rewrite !append_assoc; reflexivity.
  - rewrite !append_assoc; reflexivity.
  - rewrite !append_assoc; reflexivity.
  - intros Hc; apply clean_spec in Hc as [Hq Hf].
    apply Hlive; rewrite !occurs_app; [rewrite Hq|rewrite Hf]; reflexivity.
  - intros Hc Hi.
    apply clean_spec in Hc as [Hq Hf]; apply clean_spec in Hi as [Hq' Hf'].
    apply Hlive; rewrite !occurs_app;
      [rewrite Hq, Hq'|rewrite Hf, Hf']; reflexivity.
Qed.

Lemma item_writes_witness :
  writes (create_item (always (ok JNull)) demo "c" (JObj [("name", JStr "n")])
            true) initial demo POST
    "https://api.webflow.com/collections/c/items?live=true"
    [("name", JStr "n")] /\
  writes (update_item (always (ok JNull)) demo "c" "i"
            (JObj [("name", JStr "n")]) true) initial demo PUT
    "https://api.webflow.com/collections/c/items/i?live=true"
    [("name", JStr "n")] /\
  writes (patch_item (always (ok JNull)) demo "c" "i"
            (JObj [("name", JStr "n")]) true) initial demo PATCH
    "https://api.webflow.com/collections/c/items/i?live=true"
    [("name", JStr "n")] /\
  live_only "https://api.webflow.com/collections/c/items?live=true"
    "https://api.webflow.com/collections/c/items" true /\
  live_only "https://api.webflow.com/collections/c/items/i?live=true"
    "https://api.webflow.com/collections/c/items/i" true.
Proof.
  destruct (item_writes (always (ok JNull)) demo_settings demo "c" "i"
              [("name", JStr "n")] true initial eq_refl)
    as (Hc & Hu & Hp & Hq & Hq').
  exact (conj Hc (conj Hu (conj Hp
           (conj (Hq eq_refl) (Hq' eq_refl eq_refl))))).
Defined.

Example create_item_draft :
  map req_url
    (sent (snd (create_item (always (ok JNull)) demo "c"
                  (JObj [("name", JStr "n")]) false initial))) =
  [ "https://api.webflow.com/collections/c/items" ] /\
  live_only "https://api.webflow.com/collections/c/items"
    "https://api.webflow.com/collections/c/items" false.
Proof. repeat split. Qed.

(** A question mark inside a fragment starts no query. *)
Example query_after_fragment :
  query_string "https://api.webflow.com/collections/c/items/i#x?live=true"
    = None.
Proof. reflexivity. Qed.

(** * Further properties of the client *)

(** ** Every method, one invariant at a time *)

Section EveryCall.

Variable upstream : Upstream.
Variable self : WebflowApi.

Lemma body_matches_get path : body_matches_method (request_of self GET path None).
Proof. split; [now left|reflexivity]. Qed.

Lemma body_matches_delete path :
  body_matches_method (request_of self DELETE path None).
Proof. split; [now right|reflexivity]. Qed.

Lemma body_matches_post path j :
  body_matches_method (request_of self POST path (Some j)).
Proof. split; [discriminate|intros [H|H]; discriminate H]. Qed.

Lemma body_matches_put path j :
  body_matches_method (request_of self PUT path (Some j)).
Proof. split; [discriminate|intros [H|H]; discriminate H]. Qed.

Lemma body_matches_patch path j :
  body_matches_method (request_of self PATCH path (Some j)).
Proof. split; [discriminate|intros [H|H]; discriminate H]. Qed.

(** X3: whatever the method called and whatever the service answers, a
    request carries a JSON body exactly when it is not a GET or a DELETE:
    the reads and the removals never send one, the writes always do. *)
Theorem bodies_go_with_writes fuel c w :
  exists rs,
    sent (snd (call upstream fuel self c w)) = (sent w ++ rs)%list /\
    Forall body_matches_method rs.
Proof.
  assert (Hsends : sends body_matches_method (call upstream fuel self c)).
  { destruct c; cbn [call];
      try (apply sends_webflow_request;
           first [ apply body_matches_get | apply body_matches_delete
                 | apply body_matches_post | apply body_matches_put
                 | apply body_matches_patch ]).
    destruct all.
    - apply sends_list_items_all; intros o; apply body_matches_get.
    - apply sends_webflow_request, body_matches_get. }
  apply Hsends.
Qed.

(** X4: no method ever sends a request anywhere but under the base URL of
    the class. *)
Theorem requests_stay_on_base_url fuel c w :
  exists rs,
    sent (snd (call upstream fuel self c w)) = (sent w ++ rs)%list /\
    Forall (on_base_url self) rs.
Proof.
  assert (Hone : forall m p k, on_base_url self (request_of self m p k)).
  { intros m p k; now exists p. }
  assert (Hsends : sends (on_base_url self) (call upstream fuel self c)).
  { destruct c; cbn [call]; try (apply sends_webflow_request, Hone).
    destruct all.
    - apply sends_list_items_all; intros o; apply Hone.
    - apply sends_webflow_request, Hone. }
  apply Hsends.
Qed.

(** X1: a transport failure inside [requests.request] leaves a one-request
    method as the exception it is: there is no second attempt, and nothing
    is printed. *)
Theorem transport_failure_propagates fuel c w r msg :
  single c = true ->
  sent (snd (call upstream fuel self c w)) = (sent w ++ [r])%list ->
  upstream (sent w) r = Fails msg ->
  call upstream fuel self c w =
  (Raise (RequestException msg),
   {| sent := (sent w ++ [r])%list; stdout := stdout w |}).
Proof.
  intros Hs Hsent Hreply.
  destruct (call_single upstream self fuel c Hs) as (m & p & k & Hc).
  rewrite Hc in *.
  rewrite webflow_request_sent in Hsent.
  apply app_inv_head in Hsent; injection Hsent as <-.
  rewrite webflow_request_eq; cbv zeta.
  now rewrite Hreply.
Qed.

(** X2: a reply with a JSON body is printed on standard output once, before
    its status is looked at: the body of an error reply is printed too. *)
Theorem body_printed_whatever_status fuel c w r res j :
  single c = true ->
  sent (snd (call upstream fuel self c w)) = (sent w ++ [r])%list ->
  upstream (sent w) r = Responds res ->
  body res = Json j ->
  stdout (snd (call upstream fuel self c w)) = (stdout w ++ [j])%list.
Proof.
  intros Hs Hsent Hreply Hbody.
  destruct (call_single upstream self fuel c Hs) as (m & p & k & Hc).
  rewrite Hc in *.
  rewrite webflow_request_sent in Hsent.
  apply app_inv_head in Hsent; injection Hsent as <-.
  rewrite webflow_request_eq; cbv zeta.
  rewrite Hreply, Hbody.
  destruct (is_error res); reflexivity.
Qed.

End EveryCall.

Lemma transport_failure_propagates_witness :
  call unreachable 0 demo (RemoveWebhook "s" "h") initial =
  (Raise (RequestException "connection refused"),
   {| sent := (sent initial
                 ++ [request_of demo DELETE "sites/s/webhooks/h" None])%list;
      stdout := stdout initial |}).
Proof.
  apply (transport_failure_propagates unreachable demo 0
           (RemoveWebhook "s" "h") initial
           (request_of demo DELETE "sites/s/webhooks/h" None)
           "connection refused").
  - reflexivity.
  - reflexivity.
  - reflexivity.
Defined.

Lemma body_printed_whatever_status_witness :
  stdout (snd (call (always not_found) 0 demo (GetSite "nowhere") initial)) =
  (stdout initial
     ++ [JObj [("msg", JStr "Not Found"); ("code", JNum 404)]])%list.
Proof.
  apply (body_printed_whatever_status (always not_found) demo 0
           (GetSite "nowhere") initial
           (request_of demo GET "sites/nowhere" None) not_found).
  - reflexivity.
  - reflexivity.
  - reflexivity.
  - reflexivity.
Defined.

(** ** Identifiers in paths *)

Lemma append_inv_head (a x y : string) : a ++ x = a ++ y -> x = y.
Proof.
  induction a as [|c a IH]; cbn; [trivial|].
  intros [= H]; auto.
Qed.

(** X5: identifiers go into the path as they are.  An item id that ends in
    [?live=true] turns a draft update into a live one: the request is the
    one that [live=True] sends for the id without the suffix. *)
Theorem live_suffix_in_item_id upstream self cid item_id item_data w :
  update_item upstream self cid (item_id ++ "?live=true") item_data false w =
  update_item upstream self cid item_id item_data true w /\
  patch_item upstream self cid (item_id ++ "?live=true") item_data false w =
  patch_item upstream self cid item_id item_data true w.
Proof.
  unfold update_item, patch_item.
  replace ("collections/" ++ cid ++ "/items/" ++ (item_id ++ "?live=true") ++ "")
    with ("collections/" ++ cid ++ "/items/" ++ item_id ++ "?live=true").
  - split; reflexivity.
  - now rewrite append_empty_r.
Qed.

(** X6: when collection ids hold no slash, the request of [get_item] tells
    the collection and the item apart: two calls that send the same request
    were given the same ids. *)
Theorem get_item_request_injective upstream self cid item_id cid' item_id' w r :
  occurs "/" cid = false ->
  occurs "/" cid' = false ->
  sent (snd (get_item upstream self cid item_id w)) = (sent w ++ [r])%list ->
  sent (snd (get_item upstream self cid' item_id' w)) = (sent w ++ [r])%list ->
  cid = cid' /\ item_id = item_id'.
Proof.
  intros Hc Hc' Hs Hs'.
  unfold get_item in Hs, Hs'.
  rewrite webflow_request_sent in Hs, Hs'.
  rewrite <- Hs' in Hs.
  apply app_inv_head in Hs.
  injection Hs as Hurl.
  apply append_inv_head in Hurl.
  cbn in Hurl.
  repeat match type of Hurl with String _ _ = String _ _ =>
    injection Hurl as Hurl end.
  apply (f_equal (split_first "/")) in Hurl.
  rewrite !split_first_app in Hurl by assumption.
  injection Hurl as Hcid Hitem.
  now split.
Qed.

Lemma get_item_request_injective_witness :
  "c" = "c" /\ "i" = "i".
Proof.
  apply (get_item_request_injective (always not_found) demo "c" "i" "c" "i"
           initial (request_of demo GET "collections/c/items/i" None)).
  - reflexivity.
  - reflexivity.
  - reflexivity.
  - reflexivity.
Defined.

(** Without that condition two different items can share a request. *)
Example get_item_collision :
  sent (snd (get_item unreachable demo "a/items/b" "c" initial)) =
  sent (snd (get_item unreachable demo "a" "b/items/c" initial)).
Proof. reflexivity. Qed.

(** ** The full fetch, page by page *)

Lemma dict_get_set_same d k v : dict_get (dict_set d k v) k = Some v.
Proof.
  induction d as [|[k' v'] d IH]; cbn.
  - now rewrite String.eqb_refl.
  - destruct (String.eqb k' k) eqn:E; cbn; rewrite E; [reflexivity|exact IH].
Qed.

Lemma dict_get_set_other d k v k' :
  k <> k' -> dict_get (dict_set d k v) k' = dict_get d k'.
Proof.
  intros Hne.
  induction d as [|[k0 v0] d IH]; cbn.
  - apply String.eqb_neq in Hne; now rewrite Hne.
  - destruct (String.eqb k0 k) eqn:E; cbn.
    + apply String.eqb_eq in E; subst k0.
      apply String.eqb_neq in Hne; now rewrite Hne.
    + destruct (String.eqb k0 k'); [reflexivity|exact IH].
Qed.

Lemma merged_count env all_items :
  exists d,
    merged env all_items = JObj d /\
    dict_get d "items" = Some (JArr all_items) /\
    dict_get d "count" = Some (JNum (len all_items)).
Proof.
  eexists; split; [reflexivity|]; split.
  - rewrite dict_get_set_other by discriminate.
    apply dict_get_set_same.
  - apply dict_get_set_same.
Qed.

Section PageByPage.

Variable upstream : Upstream.
Variable self : WebflowApi.
Variable cid : string.

Lemma webflow_request_returns method path kwargs w res j :
  upstream (sent w) (request_of self method path kwargs) = Responds res ->
  body res = Json j ->
  is_error res = false ->
  _webflow_request upstream self method path kwargs w =
  (Ret j, {| sent := (sent w ++ [request_of self method path kwargs])%list;
             stdout := (stdout w ++ [j])%list |}).
Proof.
  intros Hreply Hbody Hok.
  rewrite webflow_request_eq; cbv zeta.
  now rewrite Hreply, Hbody, Hok.
Qed.

(** X7: a first page that decodes to an object without the key [items]
    ends the full fetch with [KeyError], after that one request. *)
Theorem first_page_without_items fuel limit offset w res env :
  upstream (sent w) (page_request self cid 100 offset) = Responds res ->
  body res = Json (JObj env) ->
  is_error res = false ->
  dict_get env "items" = None ->
  list_items upstream fuel self cid limit offset true w =
  (Raise (KeyError "items"),
   {| sent := (sent w ++ [page_request self cid 100 offset])%list;
      stdout := (stdout w ++ [JObj env])%list |}).
Proof.
  intros Hreply Hbody Hok Hitems.
  cbn [list_items]; unfold bind at 1, list_items_page.
  rewrite (webflow_request_returns _ _ _ _ res (JObj env)) by assumption.
  unfold bind at 1, getitem.
  now rewrite Hitems.
Qed.

(** X8: a first page with items but without the key [total] ends the full
    fetch with [KeyError] too: the items it brought are not returned. *)
Theorem first_page_without_total fuel limit offset w res env items :
  upstream (sent w) (page_request self cid 100 offset) = Responds res ->
  body res = Json (JObj env) ->
  is_error res = false ->
  dict_get env "items" = Some (JArr items) ->
  dict_get env "total" = None ->
  list_items upstream fuel self cid limit offset true w =
  (Raise (KeyError "total"),
   {| sent := (sent w ++ [page_request self cid 100 offset])%list;
      stdout := (stdout w ++ [JObj env])%list |}).
Proof.
  intros Hreply Hbody Hok Hitems Htotal.
  cbn [list_items]; unfold bind at 1, list_items_page.
  rewrite (webflow_request_returns _ _ _ _ res (JObj env)) by assumption.
  unfold bind at 1, getitem; rewrite Hitems; cbn.
  destruct fuel; cbn [list_items_while];
    unfold bind at 1, getitem; now rewrite Htotal.
Qed.

(** X10: when the first page already holds as many items as [total] says
    (an empty collection, or one of at most a page), the full fetch is that
    single request, whatever the fuel; [count] is the number of items the
    page brought. *)
Theorem one_page_is_enough fuel limit offset w env items total :
  upstream (sent w) (page_request self cid 100 offset)
    = Responds (ok (JObj env)) ->
  envelope env items total ->
  total <= len items ->
  list_items upstream fuel self cid limit offset true w =
  (Ret (merged env items),
   {| sent := (sent w ++ [page_request self cid 100 offset])%list;
      stdout := (stdout w ++ [JObj env])%list |}).
Proof.
  intros Hreply Henv Hle.
  rewrite (list_items_first upstream self cid _ limit offset w env items total)
    by assumption.
  apply (list_items_while_stop upstream self cid _ _ _ env total);
    [apply Henv|assumption].
Qed.

(** X11: the loop compares with the [total] of the page it has just read.
    When the second page reports a total that the items gathered so far
    reach, the fetch stops there, whatever the first page said; the items of
    the two pages are kept as they came, in order. *)
Theorem last_seen_total_decides fuel limit offset w env0 items0 total0
    env1 items1 total1 :
  let r0 := page_request self cid 100 offset in
  let r1 := page_request self cid 100 (offset + 100) in
  (1 <= fuel)%nat ->
  upstream (sent w) r0 = Responds (ok (JObj env0)) ->
  envelope env0 items0 total0 ->
  len items0 < total0 ->
  upstream (sent w ++ [r0])%list r1 = Responds (ok (JObj env1)) ->
  envelope env1 items1 total1 ->
  total1 <= len (items0 ++ items1) ->
  list_items upstream fuel self cid limit offset true w =
  (Ret (merged env1 (items0 ++ items1)),
   {| sent := (sent w ++ [r0; r1])%list;
      stdout := (stdout w ++ [JObj env0; JObj env1])%list |}).
Proof.
  intros r0 r1 Hfuel H0 E0 Hlt H1 E1 Hle.
  destruct fuel as [|fuel]; [lia|].
  rewrite (list_items_first upstream self cid _ limit offset w env0 items0
             total0) by assumption.
  rewrite (list_items_while_continue upstream self cid _ _ _ env0 total0 _
             env1 items1 total1); trivial; [|apply E0].
  rewrite (list_items_while_stop upstream self cid _ _ _ env1 total1);
    [|apply E1|assumption].
  cbn [sent stdout]; now rewrite <- !app_assoc.
Qed.

(** X9: an error reply in the middle of a full fetch ends it with
    [HTTPError]; the items of the pages before are not returned. *)
Theorem page_failure_discards_items fuel limit offset w env0 items0 total0
    res j :
  let r0 := page_request self cid 100 offset in
  let r1 := page_request self cid 100 (offset + 100) in
  (1 <= fuel)%nat ->
  upstream (sent w) r0 = Responds (ok (JObj env0)) ->
  envelope env0 items0 total0 ->
  len items0 < total0 ->
  upstream (sent w ++ [r0])%list r1 = Responds res ->
  body res = Json j ->
  is_error res = true ->
  list_items upstream fuel self cid limit offset true w =
  (Raise (HTTPError res),
   {| sent := (sent w ++ [r0; r1])%list;
      stdout := (stdout w ++ [JObj env0; j])%list |}).
Proof.
  intros r0 r1 Hfuel H0 E0 Hlt H1 Hbody Herr.
  destruct fuel as [|fuel]; [lia|].
  rewrite (list_items_first upstream self cid _ limit offset w env0 items0
             total0) by assumption.
  cbn [list_items_while].
  unfold bind at 1, getitem; destruct E0 as [_ Htotal]; rewrite Htotal; cbn.
  unfold bind at 1; cbn.
  replace (len items0 <? total0) with true by lia.
  unfold bind at 1, list_items_page.
  rewrite webflow_request_eq; cbv zeta; cbn [sent stdout].
  fold (page_request self cid 100 (offset + 100)).
  fold r0 r1.
  rewrite H1, Hbody, Herr.
  now rewrite <- !app_assoc.
Qed.

Lemma list_items_while_returns fuel :
  forall offset all_items resp w v,
  fst (list_items_while upstream fuel self cid offset all_items resp w) = Ret v ->
  exists env all_items', v = merged env all_items'.
Proof.
  induction fuel as [|fuel IH]; intros offset all_items resp w v;
    cbn [list_items_while]; unfold bind at 1.
  - destruct (getitem resp "total" w) as [[t|e|] w1]; cbn; try discriminate.
    unfold bind at 1.
    destruct (int_lt (len all_items) t w1) as [[[|]|e|] w2]; cbn;
      try discriminate.
    destruct resp; cbn; try discriminate.
    intros [= <-]; now eexists _, _.
  - destruct (getitem resp "total" w) as [[t|e|] w1]; cbn; try discriminate.
    unfold bind at 1.
    destruct (int_lt (len all_items) t w1) as [[[|]|e|] w2]; cbn;
      try discriminate.
    + unfold bind at 1.
      destruct (list_items_page upstream self cid 100 (offset + 100) w2)
        as [[a|e|] w3]; cbn; try discriminate.
      unfold bind at 1.
      destruct (getitem a "items" w3) as [[i|e|] w4]; cbn; try discriminate.
      unfold bind at 1.
      destruct (extend all_items i w4) as [[l|e|] w5]; cbn; try discriminate.
      apply IH.
    + destruct resp; cbn; try discriminate.
      intros [= <-]; now eexists _, _.
Qed.

(** X14: whatever the service answers, a full fetch that returns returns an
    object whose [items] is a list and whose [count] is the length of that
    list. *)
Theorem returned_count_is_length fuel limit offset w v :
  fst (list_items upstream fuel self cid limit offset true w) = Ret v ->
  exists d items,
    v = JObj d /\
    dict_get d "items" = Some (JArr items) /\
    dict_get d "count" = Some (JNum (len items)).
Proof.
  cbn [list_items]; unfold bind at 1.
  destruct (list_items_page upstream self cid 100 offset w) as [[a|e|] w1];
    cbn; try discriminate.
  unfold bind at 1.
  destruct (getitem a "items" w1) as [[i|e|] w2]; cbn; try discriminate.
  unfold bind at 1.
  destruct (extend [] i w2) as [[l|e|] w3]; cbn; try discriminate.
  intros Hret.
  apply list_items_while_returns in Hret as (env & all' & ->).
  destruct (merged_count env all') as (d & Hd & Hi & Hc).
  now exists d, all'.
Qed.

End PageByPage.

Lemma first_page_without_items_witness :
  list_items (always (ok (JObj [("total", JNum 3)]))) 4 demo "c" 100 0 true
    initial =
  (Raise (KeyError "items"),
   {| sent := (sent initial ++ [page_request demo "c" 100 0])%list;
      stdout := (stdout initial ++ [JObj [("total", JNum 3)]])%list |}).
Proof.
  apply (first_page_without_items (always (ok (JObj [("total", JNum 3)])))
           demo "c" 4 100 0 initial (ok (JObj [("total", JNum 3)]))).
  - reflexivity.
  - reflexivity.
  - reflexivity.
  - reflexivity.
Defined.

Lemma first_page_without_total_witness :
  list_items (always (ok (JObj [("items", JArr [JNum 1])]))) 4 demo "c" 100 0
    true initial =
  (Raise (KeyError "total"),
   {| sent := (sent initial ++ [page_request demo "c" 100 0])%list;
      stdout := (stdout initial ++ [JObj [("items", JArr [JNum 1])]])%list |}).
Proof.
  apply (first_page_without_total
           (always (ok (JObj [("items", JArr [JNum 1])])))
           demo "c" 4 100 0 initial (ok (JObj [("items", JArr [JNum 1])]))
           [("items", JArr [JNum 1])] [JNum 1]).
  - reflexivity.
  - reflexivity.
  - reflexivity.
  - reflexivity.
  - reflexivity.
Defined.

Lemma one_page_is_enough_witness :
  list_items (paged_server "c" []) 0 demo "c" 100 0 true initial =
  (Ret (merged (page_env [] 0) []),
   {| sent := (sent initial ++ [page_request demo "c" 100 0])%list;
      stdout := (stdout initial ++ [JObj (page_env [] 0)])%list |}).
Proof.
  apply (one_page_is_enough (paged_server "c" []) demo "c" 0 100 0 initial
           (page_env [] 0) [] 0).
  - reflexivity.
  - split; reflexivity.
  - reflexivity.
Defined.

Lemma last_seen_total_decides_witness :
  list_items shrinking 1 demo "c" 100 0 true initial =
  (Ret (merged [("items", JArr [JNum 3]); ("total", JNum 3)]
          ([JNum 1; JNum 2] ++ [JNum 3])),
   {| sent := (sent initial ++ [ page_request demo "c" 100 0;
                                 page_request demo "c" 100 (0 + 100) ])%list;
      stdout := (stdout initial
                   ++ [ JObj [ ("items", JArr [JNum 1; JNum 2]);
                               ("total", JNum 5) ];
                        JObj [ ("items", JArr [JNum 3]);
                               ("total", JNum 3) ] ])%list |}).
Proof.
  apply (last_seen_total_decides shrinking demo "c" 1 100 0 initial
           [("items", JArr [JNum 1; JNum 2]); ("total", JNum 5)]
           [JNum 1; JNum 2] 5
           [("items", JArr [JNum 3]); ("total", JNum 3)] [JNum 3] 3).
  - lia.
  - reflexivity.
  - split; reflexivity.
  - reflexivity.
  - reflexivity.
  - split; reflexivity.
  - cbn; lia.
Defined.

Lemma page_failure_discards_items_witness :
  list_items failing_second 3 demo "c" 100 0 true initial =
  (Raise (HTTPError server_error),
   {| sent := (sent initial ++ [ page_request demo "c" 100 0;
                                 page_request demo "c" 100 (0 + 100) ])%list;
      stdout := (stdout initial
                   ++ [ JObj [("items", JArr [JNum 1]); ("total", JNum 2)];
                        JObj [("msg", JStr "Internal Server Error")] ])%list |}).
Proof.
  apply (page_failure_discards_items failing_second demo "c" 3 100 0 initial
           [("items", JArr [JNum 1]); ("total", JNum 2)] [JNum 1] 2
           server_error (JObj [("msg", JStr "Internal Server Error")])).
  - lia.
  - reflexivity.
  - split; reflexivity.
  - reflexivity.
  - reflexivity.
  - reflexivity.
  - reflexivity.
Defined.

Lemma returned_count_is_length_witness :
  exists d items,
    merged (page_env (numbered 250) 200) (numbered 250) = JObj d /\
    dict_get d "items" = Some (JArr items) /\
    dict_get d "count" = Some (JNum (len items)).
Proof.
  apply (returned_count_is_length (paged_server "c" (numbered 250)) demo "c"
           2 100 0 initial).
  vm_compute; reflexivity.
Defined.

(** ** A consistent service, any number of items *)

Section AnySize.

Variable self : WebflowApi.
Variable cid : string.
Variable db : list json.

Hypothesis configured : WEBFLOW_URL self = "https://api.webflow.com".

Lemma list_items_while_pages fuel :
  forall offset w,
  0 <= offset ->
  len db - (offset + 100) <= 100 * Z.of_nat fuel ->
  exists n w',
    (n <= fuel)%nat /\
    list_items_while (paged_server cid db) fuel self cid offset
      (firstn (Z.to_nat (offset + 100)) db) (JObj (page_env db offset)) w =
    (Ret (merged (page_env db (offset + 100 * Z.of_nat n)) db), w') /\
    sent w' = (sent w ++ page_requests self cid (offset + 100) n)%list /\
    len db <= offset + 100 * (Z.of_nat n + 1) /\
    (n = 0%nat \/ offset + 100 * Z.of_nat n < len db).
Proof.
  induction fuel as [|fuel IH]; intros offset w Hoff Hfuel.
  - exists 0%nat, w.
    assert (Hdb : firstn (Z.to_nat (offset + 100)) db = db)
      by (apply firstn_all2; unfold len in Hfuel; lia).
    rewrite Hdb, Z.mul_0_r, Z.add_0_r.
    split; [lia|]; split; [|split; [|split]].
    + apply (list_items_while_stop _ _ _ _ _ _ _ (len db));
        [reflexivity|lia].
    + cbn; now rewrite app_nil_r.
    + lia.
    + now left.
  - destruct (Z.ltb_spec (len (firstn (Z.to_nat (offset + 100)) db)) (len db))
      as [Hlt|Hge].
    + assert (Hshort : offset + 100 < len db).
      { unfold len in *; rewrite length_firstn in Hlt; lia. }
      rewrite (list_items_while_continue _ _ _ _ _ _ (page_env db offset)
                 (len db) _ (page_env db (offset + 100))
                 (firstn 100 (skipn (Z.to_nat (offset + 100)) db)) (len db));
        trivial.
      2:{ apply paged_server_page; [assumption|lia]. }
      2:{ apply page_envelope. }
      rewrite <- firstn_plus.
      replace (Z.to_nat (offset + 100) + 100)%nat
        with (Z.to_nat (offset + 100 + 100)) by lia.
      destruct (IH (offset + 100)
                  {| sent := (sent w ++ [page_request self cid 100 (offset + 100)])%list;
                     stdout := (stdout w ++ [JObj (page_env db (offset + 100))])%list |})
        as (n & w' & Hn & Hrun & Hsent & Hup & Hlow); [lia|lia|].
      exists (S n), w'.
      replace (offset + 100 * Z.of_nat (S n))
        with (offset + 100 + 100 * Z.of_nat n) by lia.
      split; [lia|]; split; [exact Hrun|]; split; [|split].
      * rewrite Hsent, page_requests_S; cbn [sent].
        now rewrite <- app_assoc.
      * lia.
      * right; lia.
    + exists 0%nat, w.
      assert (Hdb : firstn (Z.to_nat (offset + 100)) db = db).
      { apply firstn_all2; unfold len in Hge.
        rewrite length_firstn in Hge; lia. }
      rewrite Hdb, Z.mul_0_r, Z.add_0_r.
      split; [lia|]; split; [|split; [|split]].
      * apply (list_items_while_stop _ _ _ _ _ _ _ (len db));
          [reflexivity|lia].
      * cbn; now rewrite app_nil_r.
      * unfold len in *; rewrite length_firstn in Hge; lia.
      * now left.
Qed.

End AnySize.

(** X12: against a consistent service that holds any number of items and
    serves them in pages of 100, the full fetch from offset 0 returns, once
    the fuel covers the pages: it sends one request per page of the
    collection (a single one when the collection is empty), at offsets 0,
    100, ..., and returns the envelope of the last page with every item of
    the collection, in order, and their number as [count]. *)
Theorem full_fetch_complete self cid db fuel limit w :
  WEBFLOW_URL self = "https://api.webflow.com" ->
  len db <= 100 * (Z.of_nat fuel + 1) ->
  exists n w',
    list_items (paged_server cid db) fuel self cid limit 0 true w =
    (Ret (merged (page_env db (100 * Z.of_nat n)) db), w') /\
    sent w' = (sent w ++ page_requests self cid 0 (S n))%list /\
    len db <= 100 * (Z.of_nat n + 1) /\
    (n = 0%nat \/ 100 * Z.of_nat n < len db).
Proof.
  intros Hurl Hfuel.
  rewrite (list_items_first _ _ _ _ _ _ _ (page_env db 0)
             (firstn 100 (skipn (Z.to_nat 0) db)) (len db)).
  - destruct (list_items_while_pages self cid db Hurl fuel 0
                {| sent := (sent w ++ [page_request self cid 100 0])%list;
                   stdout := (stdout w ++ [JObj (page_env db 0)])%list |})
      as (n & w' & Hn & Hrun & Hsent & Hup & Hlow); [lia|lia|].
    exists n, w'.
    split; [exact Hrun|]; split; [|split; [lia|]].
    + rewrite Hsent, page_requests_S; cbn [sent].
      now rewrite <- app_assoc.
    + destruct Hlow as [H|H]; [now left|right; lia].
  - apply paged_server_page; [assumption|lia].
  - apply page_envelope.
Qed.

Lemma full_fetch_complete_witness :
  exists n w',
    list_items (paged_server "c" (numbered 730)) 9 demo "c" 5 0 true initial =
    (Ret (merged (page_env (numbered 730) (100 * Z.of_nat n)) (numbered 730)),
     w') /\
    sent w' = (sent initial ++ page_requests demo "c" 0 (S n))%list /\
    len (numbered 730) <= 100 * (Z.of_nat n + 1) /\
    (n = 0%nat \/ 100 * Z.of_nat n < len (numbered 730)).
Proof.
  apply (full_fetch_complete demo "c" (numbered 730) 9 5 initial).
  - reflexivity.
  - vm_compute; discriminate.
Defined.

(** X13: the full fetch counts the items it has gathered against [total],
    not the offset it has reached.  Started at a positive offset against a
    consistent service with a collection that is not empty, it can never
    gather [total] items: it never returns, and keeps sending one request
    per unit of fuel. *)
Theorem offset_fetch_never_returns self cid db start fuel limit w :
  WEBFLOW_URL self = "https://api.webflow.com" ->
  0 < start ->
  db <> [] ->
  fst (list_items (paged_server cid db) fuel self cid limit start true w)
    = OutOfFuel /\
  sent (snd (list_items (paged_server cid db) fuel self cid limit start true w))
    = (sent w ++ page_requests self cid start (S fuel))%list.
Proof.
  intros Hurl Hpos Hdb.
  now apply list_items_all_short.
Qed.

Lemma offset_fetch_never_returns_witness :
  fst (list_items (paged_server "c" (numbered 730)) 20 demo "c" 100 1 true
         initial) = OutOfFuel /\
  sent (snd (list_items (paged_server "c" (numbered 730)) 20 demo "c" 100 1
               true initial))
    = (sent initial ++ page_requests demo "c" 1 (S 20))%list.
Proof.
  apply (offset_fetch_never_returns demo "c" (numbered 730) 1 20 100 initial).
  - reflexivity.
  - lia.
  - discriminate.
Defined.

(** ** Webhooks *)

(** X15: [create_webhook] is one POST to [sites/<site_id>/webhooks] whose
    JSON body has the three keys [triggerType], [url] and [filter], bound to
    the arguments; a reply that is not an error is returned decoded. *)
Theorem create_webhook_request upstream self site_id triggerType url filter w :
  let r := {| req_method := POST;
              req_url := WEBFLOW_URL self ++ "/sites/" ++ site_id ++ "/webhooks";
              req_headers := HEADERS self;
              req_json := Some (JObj [ ("triggerType", JStr triggerType);
                                       ("url", JStr url);
                                       ("filter", filter) ]) |} in
  sent (snd (create_webhook upstream self site_id triggerType url filter w))
    = (sent w ++ [r])%list /\
  forall res j,
    upstream (sent w) r = Responds res ->
    body res = Json j ->
    is_error res = false ->
    fst (create_webhook upstream self site_id triggerType url filter w) = Ret j.
Proof.
  intros r; unfold create_webhook.
  split; [apply webflow_request_sent|].
  intros res j Hreply Hbody Hok.
  now rewrite (webflow_request_returns upstream self _ _ _ w res j).
Qed.

Example create_webhook_body :
  map req_json
    (sent (snd (create_webhook unreachable demo "s" "form_submission"
                  "https://example.com/hook" (JObj []) initial))) =
  [ Some (JObj [ ("triggerType", JStr "form_submission");
                 ("url", JStr "https://example.com/hook");
                 ("filter", JObj []) ]) ].
Proof. reflexivity. Qed.

(** X17: the webhook methods address one resource: [get_webhook] reads and
    [remove_webhook] deletes the same URL, which is the URL that
    [list_webhooks] reads and [create_webhook] posts to, followed by a slash
    and the webhook id. *)
Theorem webhook_methods_share_url upstream self site_id webhook_id
    triggerType url filter w :
  let hooks := WEBFLOW_URL self ++ "/sites/" ++ site_id ++ "/webhooks" in
  map req_url (sent (snd (list_webhooks upstream self site_id w)))
    = (map req_url (sent w) ++ [hooks])%list /\
  map req_url
    (sent (snd (create_webhook upstream self site_id triggerType url filter w)))
    = (map req_url (sent w) ++ [hooks])%list /\
  map req_url (sent (snd (get_webhook upstream self site_id webhook_id w)))
    = (map req_url (sent w) ++ [(hooks ++ "/" ++ webhook_id)%string])%list /\
  map req_url (sent (snd (remove_webhook upstream self site_id webhook_id w)))
    = (map req_url (sent w) ++ [(hooks ++ "/" ++ webhook_id)%string])%list.
Proof.
  intros hooks; subst hooks.
  unfold list_webhooks, create_webhook, get_webhook, remove_webhook.
  rewrite !webflow_request_sent, !map_app; cbn [map request_of req_url].
  rewrite !append_assoc.
  repeat split; reflexivity.
Qed.

(** X16: the item methods address one resource: [get_item] reads and
    [remove_item] deletes the same URL, and [update_item] and [patch_item]
    write to that URL, followed by [?live=true] when [live] is set. *)
Theorem item_methods_share_url upstream self cid item_id item_data
    (live : bool) w :
  let item := WEBFLOW_URL self ++ "/collections/" ++ cid ++ "/items/"
                ++ item_id in
  let suffix := if live then "?live=true" else "" in
  map req_url (sent (snd (get_item upstream self cid item_id w)))
    = (map req_url (sent w) ++ [item])%list /\
  map req_url (sent (snd (remove_item upstream self cid item_id w)))
    = (map req_url (sent w) ++ [item])%list /\
  map req_url
    (sent (snd (update_item upstream self cid item_id item_data live w)))
    = (map req_url (sent w) ++ [(item ++ suffix)%string])%list /\
  map req_url
    (sent (snd (patch_item upstream self cid item_id item_data live w)))
    = (map req_url (sent w) ++ [(item ++ suffix)%string])%list.
Proof.
  intros item suffix; subst item suffix.
  unfold get_item, remove_item, update_item, patch_item.
  rewrite !webflow_request_sent, !map_app; cbn [map request_of req_url].
  rewrite !append_assoc.
  repeat split; reflexivity.
Qed.

(** ** Pages that are not objects *)

(** X18: a first page whose JSON body is not an object (a list, a string, a
    number, [null]) ends the full fetch with [TypeError], at the
    [resp['items']] that follows the request. *)
Theorem first_page_not_an_object upstream self cid fuel limit offset w res j :
  upstream (sent w) (page_request self cid 100 offset) = Responds res ->
  body res = Json j ->
  is_error res = false ->
  (forall d, j <> JObj d) ->
  list_items upstream fuel self cid limit offset true w =
  (Raise TypeError,
   {| sent := (sent w ++ [page_request self cid 100 offset])%list;
      stdout := (stdout w ++ [j])%list |}).
Proof.
  intros Hreply Hbody Hok Hshape.
  cbn [list_items]; unfold bind at 1, list_items_page.
  rewrite (webflow_request_returns upstream self _ _ _ _ res j) by assumption.
  unfold bind at 1.
  destruct j; try reflexivity.
  now destruct (Hshape l).
Qed.

Lemma first_page_not_an_object_witness :
  list_items (always (ok (JArr [JNum 1; JNum 2]))) 3 demo "c" 100 0 true
    initial =
  (Raise TypeError,
   {| sent := (sent initial ++ [page_request demo "c" 100 0])%list;
      stdout := (stdout initial ++ [JArr [JNum 1; JNum 2]])%list |}).
Proof.
  apply (first_page_not_an_object (always (ok (JArr [JNum 1; JNum 2]))) demo
           "c" 3 100 0 initial (ok (JArr [JNum 1; JNum 2]))).
  - reflexivity.
  - reflexivity.
  - reflexivity.
  - discriminate.
Defined.
